(** * Sistema de nómina: modelo y verificación

    Shallow embedding of [models.py], [services.py] and the dialogues of
    [main.py] of the payroll manager (s2-TAREA-1).

    Modelling conventions, used throughout:
    - a Python [float] amount is an exact rational ([Qc]); rounding error,
      infinities and NaN of binary64 are outside the model;
      [round(x, n)] is rounding to the nearest multiple of [10^-n], ties to
      the even multiple, as Python does on the exact value of its argument;
    - a Python [str] is a [string] whose characters are the code points
      U+0000 .. U+00FF;
    - a value of type [Any] is a [pyval];
    - a call either returns or raises: [res A];
    - the working directory is a finite map from file names to files. *)

From Stdlib Require Import Ascii String QArith Qcanon Lqa.
From stdpp Require Import gmap strings pretty list fin_maps numbers.

Set Warnings "-clear-no-such-hyp".

Local Open Scope Z_scope.

(** ** Python values, exceptions and results *)

Inductive pyval :=
  | VNone
  | VBool (b : bool)
  | VInt (z : Z)
  | VFloat (q : Qc)
  | VStr (s : string).

Global Instance pyval_eq_dec : EqDecision pyval.
Proof. solve_decision. Defined.

Inductive exn :=
  | TypeError (msg : string)
  | ValueError (msg : string)
  | JSONDecodeError.

Global Instance exn_eq_dec : EqDecision exn.
Proof. solve_decision. Defined.

Inductive res (A : Type) :=
  | Ret (a : A)
  | Raise (e : exn).
Global Arguments Ret {A} a.
Global Arguments Raise {A} e.

Global Instance res_ret : MRet res := λ A a, Ret a.
Global Instance res_bind : MBind res := λ A B f m,
  match m with
  | Ret a => f a
  | Raise e => Raise e
  end.

Definition returns {A} (m : res A) : Prop := ∃ a, m = Ret a.

(** ** Numbers *)

Definition Qc_of_Z (z : Z) : Qc := Q2Qc (inject_Z z).

(** The numeric value of an [int], [bool] or [float]; [None] for the values
    on which Python's arithmetic raises [TypeError]. *)
Definition como_numero (v : pyval) : option Qc :=
  match v with
  | VBool b => Some (Qc_of_Z (if b then 1 else 0))
  | VInt z => Some (Qc_of_Z z)
  | VFloat q => Some q
  | VNone | VStr _ => None
  end.

(** [isinstance(v, (int, float))]; [bool] is a subclass of [int]. *)
Definition isinstance_int_float (v : pyval) : bool :=
  match v with
  | VBool _ | VInt _ | VFloat _ => true
  | VNone | VStr _ => false
  end.

(** Python's [==] on the values of the model: numbers compare by value
    across [bool], [int] and [float]; otherwise the types must agree. *)
Definition py_eq (a b : pyval) : bool :=
  match como_numero a, como_numero b with
  | Some x, Some y => bool_decide (x = y)
  | None, None => bool_decide (a = b)
  | _, _ => false
  end.

(** Nearest integer, ties to even. *)
Definition round_half_even (q : Q) : Z :=
  let n := Qnum q in
  let d := Z.pos (Qden q) in
  let f := n `div` d in
  let r := n `mod` d in
  match 2 * r ?= d with
  | Lt => f
  | Gt => f + 1
  | Eq => if Z.even f then f else f + 1
  end.

(** [round(x, ndigits)] for [ndigits >= 0]. *)
Definition py_round (x : Qc) (ndigits : nat) : Qc :=
  let p := 10 ^ Z.of_nat ndigits in
  Q2Qc (Qmake (round_half_even (this x * inject_Z p)) (Z.to_pos p)).

(** Decimal literals of the source. *)
Definition dec (num : Z) (den : positive) : Qc := Q2Qc (Qmake num den).

(** ** models.py *)

(** [class Empleado]: the five attributes set by [__init__], and [otros] for
    any attribute added later by [setattr]. *)
Record Empleado := mkEmpleado {
  cedula : pyval;
  nombre : pyval;
  sueldo : pyval;
  departamento : pyval;
  cargo : pyval;
  otros : gmap string pyval;
}.

Global Instance Empleado_eq_dec : EqDecision Empleado.
Proof. solve_decision. Defined.

Definition Empleado_init (cedula nombre sueldo departamento cargo : pyval) : Empleado :=
  mkEmpleado cedula nombre sueldo departamento cargo ∅.

(** [class DetalleNomina]. *)
Record DetalleNomina := mkDetalle {
  det_id : Z;
  det_empleado : Empleado;
  det_sueldo : Qc;
  det_bono : Qc;
  det_tot_ing : Qc;
  det_iess : Qc;
  det_prestamo : Qc;
  det_tot_des : Qc;
  det_neto : Qc;
}.

Definition TASA_IESS : Qc := dec 945 10000.

Definition DetalleNomina_init (id : Z) (empleado : Empleado)
    (sueldo bono prestamo : Qc) : DetalleNomina :=
  let tot_ing := (sueldo + bono)%Qc in
  let iess := py_round (sueldo * TASA_IESS)%Qc 2 in
  let tot_des := (iess + prestamo)%Qc in
  let neto := (tot_ing - tot_des)%Qc in
  mkDetalle id empleado sueldo bono tot_ing iess prestamo tot_des neto.

(** [class Nomina]. *)
Record Nomina := mkNomina {
  nom_id : Z;
  nom_aniomes : string;
  nom_tot_ing : Qc;
  nom_tot_des : Qc;
  nom_neto : Qc;
  nom_detalles : list DetalleNomina;
}.

Definition BONO : Qc := dec 50 1.
Definition PRESTAMO : Qc := dec 20 1.

Definition Nomina_init (id : Z) (aniomes : string) : Nomina :=
  mkNomina id aniomes 0%Qc 0%Qc 0%Qc [].

(** [Nomina.generar_detalle]: the arithmetic of [DetalleNomina.__init__]
    raises [TypeError] when the employee's [sueldo] is not a number. *)
Definition generar_detalle (empleado : Empleado) (id_detalle : Z) : res DetalleNomina :=
  match como_numero (sueldo empleado) with
  | Some s => Ret (DetalleNomina_init id_detalle empleado s BONO PRESTAMO)
  | None => Raise (TypeError "unsupported operand type(s) for +")
  end.

Definition agregar_detalle (self : Nomina) (detalle : DetalleNomina) : Nomina :=
  mkNomina (nom_id self) (nom_aniomes self)
    (nom_tot_ing self + det_tot_ing detalle)%Qc
    (nom_tot_des self + det_tot_des detalle)%Qc
    (nom_neto self + det_neto detalle)%Qc
    (nom_detalles self ++ [detalle]).

Definition Nomina_detalles_desde (self : Nomina) (detalles : list DetalleNomina) : Nomina :=
  mkNomina (nom_id self) (nom_aniomes self) (nom_tot_ing self) (nom_tot_des self)
    (nom_neto self) detalles.

(** *** Strings *)

Definition codigo (c : ascii) : N := N_of_ascii c.

Definition entre (lo hi : N) (c : ascii) : bool :=
  ((lo <=? codigo c) && (codigo c <=? hi))%N.

(** [str.isdigit] on one character: the decimal digits, and the superscript
    digits U+00B2, U+00B3 and U+00B9. *)
Definition char_isdigit (c : ascii) : bool :=
  entre 48 57 c || entre 178 179 c || entre 185 185 c.

(** [s.isdigit()]: at least one character, all of them digits. *)
Definition str_isdigit (s : string) : bool :=
  match s with
  | EmptyString => false
  | _ => forallb char_isdigit (list_ascii_of_string s)
  end.

(** The regular-expression class [\s] on [str]: Unicode white space. *)
Definition re_espacio (c : ascii) : bool :=
  entre 9 13 c || entre 28 32 c || entre 133 133 c || entre 160 160 c.

(** The class [[a-zA-Z\s]]. *)
Definition re_letra_o_espacio (c : ascii) : bool :=
  entre 97 122 c || entre 65 90 c || re_espacio c.

(** [re.fullmatch(r'^[a-zA-Z\s]+$', s)] on a string: the whole of [s] is one
    or more characters of the class (at a full match both anchors hold). *)
Definition fullmatch_texto (s : string) : bool :=
  match s with
  | EmptyString => false
  | _ => forallb re_letra_o_espacio (list_ascii_of_string s)
  end.

Definition digito (n : Z) : ascii := ascii_of_N (48 + Z.to_N n).

Fixpoint decimales (fuel : nat) (r d : Z) : string :=
  match fuel with
  | O => EmptyString
  | S fuel' =>
      if r =? 0 then EmptyString
      else String (digito ((10 * r) `div` d)) (decimales fuel' ((10 * r) `mod` d) d)
  end.

(** [str] of a float, for the idealised amounts of this model: sign, integer
    part, point, fraction digits (at most 17). The program reads it only in
    the digit test of the cedula, which no float passes: like Python's, this
    text always has a point. *)
Definition float_repr (q : Qc) : string :=
  let n := Qnum (this q) in
  let d := Z.pos (Qden (this q)) in
  let a := Z.abs n in
  (if n <? 0 then "-" else "") +:+ pretty (a `div` d) +:+ "." +:+
  (if a `mod` d =? 0 then "0" else decimales 17 (a `mod` d) d).

(** [str(v)]. *)
Definition py_str (v : pyval) : string :=
  match v with
  | VNone => "None"
  | VBool true => "True"
  | VBool false => "False"
  | VInt z => pretty z
  | VFloat q => float_repr q
  | VStr s => s
  end.

(** *** The decorator [validate_empleado] *)

Definition CAMPOS : list string :=
  ["cedula"; "nombre"; "sueldo"; "departamento"; "cargo"].

Definition MSG_FALTAN : string := "Faltan campos requeridos para el empleado.".
Definition MSG_SUELDO : string := "El sueldo debe ser un número positivo.".
Definition MSG_CEDULA : string := "La cédula debe ser un número de 10 dígitos exactamente.".
Definition MSG_NOMBRE : string := "El nombre solo puede contener letras y espacios.".
Definition MSG_DEPARTAMENTO : string := "El departamento solo puede contener letras y espacios.".
Definition MSG_CARGO : string := "El cargo solo puede contener letras y espacios.".
Definition MSG_RE_TIPO : string := "expected string or bytes-like object".

(** [d[k]] for the value of a key of [d]; read only behind the check that
    all of [CAMPOS] are keys of [d]. *)
Definition item (d : gmap string pyval) (k : string) : pyval :=
  default VNone (d !! k).

(** [v <= 0] on a number. *)
Definition no_positivo (v : pyval) : bool :=
  match como_numero v with
  | Some x => bool_decide (x ≤ 0)%Qc
  | None => false
  end.

(** [re.fullmatch(patron, v)] followed by the test of its result: a value
    that is not a string makes [re] raise [TypeError]. *)
Definition re_fullmatch_texto (v : pyval) : res bool :=
  match v with
  | VStr s => Ret (fullmatch_texto s)
  | _ => Raise (TypeError MSG_RE_TIPO)
  end.

(** The checks of [wrapper], in the order of the source. The candidate is a
    [dict] by its type here, so the [isinstance(empleado, dict)] test
    passes. *)
Definition validar (empleado : gmap string pyval) : res unit :=
  if negb (forallb (λ k, bool_decide (is_Some (empleado !! k))) CAMPOS) then
    Raise (ValueError MSG_FALTAN)
  else if negb (isinstance_int_float (item empleado "sueldo"))
          || no_positivo (item empleado "sueldo") then
    Raise (ValueError MSG_SUELDO)
  else
    let cedula_str := py_str (item empleado "cedula") in
    if negb (str_isdigit cedula_str) || negb (bool_decide (String.length cedula_str = 10%nat)) then
      Raise (ValueError MSG_CEDULA)
    else
      ok ← re_fullmatch_texto (item empleado "nombre");
      if negb ok then Raise (ValueError MSG_NOMBRE) else
      ok ← re_fullmatch_texto (item empleado "departamento");
      if negb ok then Raise (ValueError MSG_DEPARTAMENTO) else
      ok ← re_fullmatch_texto (item empleado "cargo");
      if negb ok then Raise (ValueError MSG_CARGO) else
      Ret ().

Definition validate_empleado {S R : Type}
    (func : S → gmap string pyval → res R) : S → gmap string pyval → res R :=
  λ self empleado, _ ← validar empleado; func self empleado.

(** [Empleado.to_dict]: the object's [__dict__]. *)
Definition Empleado_to_dict (e : Empleado) : gmap string pyval :=
  <["cedula" := cedula e]> (<["nombre" := nombre e]> (<["sueldo" := sueldo e]>
  (<["departamento" := departamento e]> (<["cargo" := cargo e]> (otros e))))).

(** [Empleado] called with the keyword arguments of a dict [d]: the keys of [d] must be exactly the five parameters of
    [__init__]; a missing or an unexpected keyword raises [TypeError]. *)
Definition Empleado_kwargs (d : gmap string pyval) : res Empleado :=
  if decide (dom d = list_to_set CAMPOS) then
    Ret (Empleado_init (item d "cedula") (item d "nombre") (item d "sueldo")
           (item d "departamento") (item d "cargo"))
  else Raise (TypeError "__init__() got an unexpected or missing keyword argument").

(** [getattr(e, key)], for an attribute that may not exist. *)
Definition getattr (e : Empleado) (key : string) : option pyval :=
  if decide (key = "cedula") then Some (cedula e)
  else if decide (key = "nombre") then Some (nombre e)
  else if decide (key = "sueldo") then Some (sueldo e)
  else if decide (key = "departamento") then Some (departamento e)
  else if decide (key = "cargo") then Some (cargo e)
  else otros e !! key.

(** [setattr(e, key, value)]. *)
Definition setattr (e : Empleado) (key : string) (value : pyval) : Empleado :=
  if decide (key = "cedula") then
    mkEmpleado value (nombre e) (sueldo e) (departamento e) (cargo e) (otros e)
  else if decide (key = "nombre") then
    mkEmpleado (cedula e) value (sueldo e) (departamento e) (cargo e) (otros e)
  else if decide (key = "sueldo") then
    mkEmpleado (cedula e) (nombre e) value (departamento e) (cargo e) (otros e)
  else if decide (key = "departamento") then
    mkEmpleado (cedula e) (nombre e) (sueldo e) value (cargo e) (otros e)
  else if decide (key = "cargo") then
    mkEmpleado (cedula e) (nombre e) (sueldo e) (departamento e) value (otros e)
  else
    mkEmpleado (cedula e) (nombre e) (sueldo e) (departamento e) (cargo e)
      (<[key := value]> (otros e)).

(** [DetalleNomina.to_dict] and [Nomina.to_dict]: the stored payroll
    document, one record per detail. *)
Record DetalleDoc := mkDetalleDoc {
  dd_id : Z;
  dd_empleado : pyval;
  dd_sueldo : Qc;
  dd_bono : Qc;
  dd_tot_ing : Qc;
  dd_iess : Qc;
  dd_prestamo : Qc;
  dd_tot_des : Qc;
  dd_neto : Qc;
}.

Record NominaDoc := mkNominaDoc {
  doc_id : Z;
  doc_aniomes : string;
  doc_tot_ing : Qc;
  doc_tot_des : Qc;
  doc_neto : Qc;
  doc_detalles : list DetalleDoc;
}.

Global Instance DetalleDoc_eq_dec : EqDecision DetalleDoc.
Proof. solve_decision. Defined.
Global Instance NominaDoc_eq_dec : EqDecision NominaDoc.
Proof. solve_decision. Defined.

Definition DetalleNomina_to_dict (d : DetalleNomina) : DetalleDoc :=
  mkDetalleDoc (det_id d) (nombre (det_empleado d)) (det_sueldo d) (det_bono d)
    (det_tot_ing d) (det_iess d) (det_prestamo d) (det_tot_des d) (det_neto d).

Definition Nomina_to_dict (n : Nomina) : NominaDoc :=
  mkNominaDoc (nom_id n) (nom_aniomes n) (nom_tot_ing n) (nom_tot_des n) (nom_neto n)
    (DetalleNomina_to_dict <$> nom_detalles n).

(** ** services.py *)

(** *** The working directory

    A file holds either text that is not a JSON document, or a JSON document
    of one of the two shapes the program writes: the roster (an array of
    objects) or a payroll (an object). [json.load] raises [JSONDecodeError]
    on the former and returns the document of the latter. *)
Inductive json_doc :=
  | DocEmpleados (datos : list (gmap string pyval))
  | DocNomina (doc : NominaDoc).

Inductive archivo :=
  | Ilegible
  | Legible (j : json_doc).

Global Instance json_doc_eq_dec : EqDecision json_doc.
Proof. solve_decision. Defined.
Global Instance archivo_eq_dec : EqDecision archivo.
Proof. solve_decision. Defined.

Definition json_load (f : archivo) : res json_doc :=
  match f with
  | Ilegible => Raise JSONDecodeError
  | Legible j => Ret j
  end.

(** *** RepositorioEmpleados *)

Record RepositorioEmpleados := mkRepositorio { repo_archivo : string }.

Definition RepositorioEmpleados_init : RepositorioEmpleados :=
  mkRepositorio "empleados.json".

Definition cargar_datos (self : RepositorioEmpleados) (dir : gmap string archivo)
    : res json_doc :=
  match dir !! repo_archivo self with
  | None => Ret (DocEmpleados [])
  | Some f => json_load f
  end.

Definition guardar_datos (self : RepositorioEmpleados) (datos : list (gmap string pyval))
    (dir : gmap string archivo) : gmap string archivo :=
  <[repo_archivo self := Legible (DocEmpleados datos)]> dir.

(** *** GestorEmpleados *)

Record GestorEmpleados := mkGestor {
  repo : RepositorioEmpleados;
  empleados : list Empleado;
}.

Fixpoint mapM_res {A B} (f : A → res B) (l : list A) : res (list B) :=
  match l with
  | [] => Ret []
  | x :: l' => y ← f x; ys ← mapM_res f l'; Ret (y :: ys)
  end.

(** The list of [Empleado] objects built from the records of [datos], each
    passed as keyword arguments; iterating over a payroll object yields its
    keys, strings, which are not keyword mappings: [TypeError]. *)
Definition cargar_empleados (r : RepositorioEmpleados) (dir : gmap string archivo)
    : res (list Empleado) :=
  datos ← cargar_datos r dir;
  match datos with
  | DocEmpleados l => mapM_res Empleado_kwargs l
  | DocNomina _ => Raise (TypeError "argument after ** must be a mapping, not str")
  end.

Definition GestorEmpleados_init (r : RepositorioEmpleados) (dir : gmap string archivo)
    : res GestorEmpleados :=
  l ← cargar_empleados r dir; Ret (mkGestor r l).

Definition guardar_empleados (self : GestorEmpleados) (dir : gmap string archivo)
    : gmap string archivo :=
  guardar_datos (repo self) (Empleado_to_dict <$> empleados self) dir.

(** The outcome of a roster operation: the value returned, the manager and
    the directory after the call. When a call raises, both are as before. *)
Definition efecto : Type := bool * GestorEmpleados * gmap string archivo.

Definition crear_empleado_cuerpo (st : GestorEmpleados * gmap string archivo)
    (nuevo_empleado : gmap string pyval) : res efecto :=
  let '(self, dir) := st in
  if existsb (λ e, py_eq (cedula e) (item nuevo_empleado "cedula")) (empleados self) then
    Ret (false, self, dir)
  else
    e ← Empleado_kwargs nuevo_empleado;
    let self' := mkGestor (repo self) (empleados self ++ [e]) in
    Ret (true, self', guardar_empleados self' dir).

Definition crear_empleado : GestorEmpleados * gmap string archivo →
    gmap string pyval → res efecto :=
  validate_empleado crear_empleado_cuerpo.

Definition consultar_empleados (self : GestorEmpleados) : list Empleado :=
  empleados self.

(** [next((i for i, e in enumerate(l) if e.cedula == cedula), None)]: the
    position of the first employee with that cedula. *)
Fixpoint buscar (l : list Empleado) (ced : pyval) : option nat :=
  match l with
  | [] => None
  | e :: l' => if py_eq (cedula e) ced then Some O else S <$> buscar l' ced
  end.

(** The loop [for key, value in cambios.items(): setattr(e, key, value)]; the
    keys of a dict are distinct, and then the order of the visits does not
    change the result ([aplicar_cambios_items]). *)
Definition aplicar_cambios (e : Empleado) (cambios : gmap string pyval) : Empleado :=
  map_fold (λ key value acc, setattr acc key value) e cambios.

Definition modificar_empleado (self : GestorEmpleados) (dir : gmap string archivo)
    (ced : pyval) (cambios : gmap string pyval) : res efecto :=
  match buscar (empleados self) ced with
  | None => Ret (false, self, dir)
  | Some i =>
      let self' := mkGestor (repo self)
        (alter (λ e, aplicar_cambios e cambios) i (empleados self)) in
      Ret (true, self', guardar_empleados self' dir)
  end.

Definition eliminar_empleado (self : GestorEmpleados) (dir : gmap string archivo)
    (ced : pyval) : res efecto :=
  match buscar (empleados self) ced with
  | None => Ret (false, self, dir)
  | Some i =>
      let self' := mkGestor (repo self) (delete i (empleados self)) in
      Ret (true, self', guardar_empleados self' dir)
  end.

(** *** GestorNominas *)

Definition nombre_archivo_nomina (aniomes : string) : string :=
  "nomina_" +:+ aniomes +:+ ".json".

(** The loop of [generar_nomina_mensual]: one detail per employee, numbered
    from [id_detalle]. *)
Fixpoint generar_detalles (nomina : Nomina) (id_detalle : Z) (l : list Empleado)
    : res Nomina :=
  match l with
  | [] => Ret nomina
  | empleado :: l' =>
      detalle ← generar_detalle empleado id_detalle;
      generar_detalles (agregar_detalle nomina detalle) (id_detalle + 1) l'
  end.

(** [generar_nomina_mensual]; [aniomes] is the month of today's date as
    [strftime('%Y%m')] gives it, and [len(os.listdir('.'))] is the number of
    entries of the directory. The method returns [None] on every path: the
    result is the directory after the call. *)
Definition generar_nomina_mensual (self : GestorEmpleados) (aniomes : string)
    (dir : gmap string archivo) : res (gmap string archivo) :=
  let empleados := consultar_empleados self in
  match empleados with
  | [] => Ret dir
  | _ =>
      let id_nomina := Z.of_nat (size dir) + 1 in
      nomina ← generar_detalles (Nomina_init id_nomina aniomes) 1 empleados;
      Ret (<[nombre_archivo_nomina aniomes := Legible (DocNomina (Nomina_to_dict nomina))]> dir)
  end.

(** [max(l, key=..., default=None)] and [min]: the first item is kept until
    a later one has a strictly greater (strictly smaller) key. *)
Definition py_max {A} (key : A → Qc) (l : list A) : option A :=
  match l with
  | [] => None
  | x :: l' => Some (foldl (λ best y, if bool_decide (key best < key y)%Qc then y else best) x l')
  end.

Definition py_min {A} (key : A → Qc) (l : list A) : option A :=
  match l with
  | [] => None
  | x :: l' => Some (foldl (λ best y, if bool_decide (key y < key best)%Qc then y else best) x l')
  end.

(** The values that [consultar_estadisticas_nomina] prints. *)
Record Estadisticas := mkEstadisticas {
  total_empleados : nat;
  total_neto : Qc;
  promedio_sueldos : Qc;
  nombres_altos : list pyval;
  mayor_neto : option DetalleNomina;
  menor_neto : option DetalleNomina;
}.

Inductive salida :=
  | NoEncontrada
  | Reporte (e : Estadisticas).

(** The [DetalleNomina] rebuilt from a stored detail. *)
Definition reconstruir_detalle (d : DetalleDoc) : DetalleNomina :=
  DetalleNomina_init (dd_id d)
    (Empleado_init (VStr "") (dd_empleado d) (VFloat (dd_sueldo d)) (VStr "") (VStr ""))
    (dd_sueldo d) (dd_bono d) (dd_prestamo d).

Definition UMBRAL_ALTO : Qc := dec 1000 1.

Definition estadisticas (datos_nomina : NominaDoc) : Estadisticas :=
  let nomina := Nomina_init (doc_id datos_nomina) (doc_aniomes datos_nomina) in
  let nomina := Nomina_detalles_desde nomina
                  (reconstruir_detalle <$> doc_detalles datos_nomina) in
  let total_empleados := length (nom_detalles nomina) in
  let total_neto := foldl (λ acumulado detalle, acumulado + det_neto detalle)%Qc
                      0%Qc (nom_detalles nomina) in
  let sueldos := det_sueldo <$> nom_detalles nomina in
  let promedio_sueldos :=
    match sueldos with
    | [] => 0%Qc
    | _ => (foldl Qcplus 0 sueldos / Qc_of_Z (Z.of_nat (length sueldos)))%Qc
    end in
  let empleados_alto_sueldo :=
    filter (λ d, UMBRAL_ALTO < det_sueldo d)%Qc (nom_detalles nomina) in
  let nombres_altos := (λ d, nombre (det_empleado d)) <$> empleados_alto_sueldo in
  let mayor_neto := py_max det_neto (nom_detalles nomina) in
  let menor_neto := py_min det_neto (nom_detalles nomina) in
  mkEstadisticas total_empleados total_neto promedio_sueldos nombres_altos
    mayor_neto menor_neto.

(** [consultar_estadisticas_nomina]: reading a roster document where a
    payroll is expected fails at [datos_nomina['id']] with [TypeError]. *)
Definition consultar_estadisticas_nomina (aniomes : string) (dir : gmap string archivo)
    : res salida :=
  match dir !! nombre_archivo_nomina aniomes with
  | None => Ret NoEncontrada
  | Some f =>
      datos_nomina ← json_load f;
      match datos_nomina with
      | DocNomina doc => Ret (Reporte (estadisticas doc))
      | DocEmpleados _ => Raise (TypeError "list indices must be integers or slices, not str")
      end
  end.

(** ** main.py

    The prompts read lines from the console. [input()] returns the next line
    of the input and raises [EOFError] when there is none; what the program
    prints, its pauses and the clearing of the screen do not change what it
    computes and are left out. *)

Inductive lectura (A : Type) :=
  | Leido (a : A) (resto : list string)
  | FinDeEntrada
  | Fallo (e : exn).
Global Arguments Leido {A} a resto.
Global Arguments FinDeEntrada {A}.
Global Arguments Fallo {A} e.

Definition input (entrada : list string) : lectura string :=
  match entrada with
  | [] => FinDeEntrada
  | linea :: resto => Leido linea resto
  end.

(** Sequencing of two console steps. *)
Definition ligar {A B} (m : list string → lectura A)
    (k : A → list string → lectura B) : list string → lectura B :=
  λ entrada,
    match m entrada with
    | Leido a resto => k a resto
    | FinDeEntrada => FinDeEntrada
    | Fallo e => Fallo e
    end.

(** A call that returns or raises, as a console step that reads nothing. *)
Definition de_res {A} (m : res A) : list string → lectura A :=
  λ entrada,
    match m with
    | Ret a => Leido a entrada
    | Raise e => Fallo e
    end.

(** The loop shared by the prompts: read a line, return it if it passes the
    test, otherwise warn and read again. *)
Fixpoint pedir (ok : string → bool) (entrada : list string) : lectura string :=
  match entrada with
  | [] => FinDeEntrada
  | linea :: resto => if ok linea then Leido linea resto else pedir ok resto
  end.

(** [cedula.isdigit() and len(cedula) == 10]. *)
Definition cedula_aceptada (cedula : string) : bool :=
  str_isdigit cedula && bool_decide (String.length cedula = 10%nat).

Definition validar_cedula : list string → lectura string :=
  pedir cedula_aceptada.

(** [str.isalpha] on one character of U+0000 .. U+00FF: the letters of the
    basic alphabet, the ordinal indicators, the micro sign and the accented
    letters (all of U+00C0 .. U+00FF but the two arithmetic signs). *)
Definition char_isalpha (c : ascii) : bool :=
  entre 65 90 c || entre 97 122 c || entre 170 170 c || entre 181 181 c
  || entre 186 186 c || entre 192 214 c || entre 216 246 c || entre 248 255 c.

Definition str_isalpha (s : string) : bool :=
  match s with
  | EmptyString => false
  | _ => forallb char_isalpha (list_ascii_of_string s)
  end.

(** [valor.replace(" ", "")]. *)
Fixpoint quitar_espacios (s : string) : string :=
  match s with
  | EmptyString => EmptyString
  | String c s' =>
      if (codigo c =? 32)%N then quitar_espacios s' else String c (quitar_espacios s')
  end.

(** [sueldo_input.replace('.', '', 1)]. *)
Fixpoint quitar_primer_punto (s : string) : string :=
  match s with
  | EmptyString => EmptyString
  | String c s' =>
      if (codigo c =? 46)%N then s' else String c (quitar_primer_punto s')
  end.

Definition texto_aceptado (valor : string) : bool :=
  str_isalpha (quitar_espacios valor).

Definition validar_texto (campo : string) : list string → lectura string :=
  pedir texto_aceptado.

(** The number written by a string of decimal digits, after [acc]. *)
Fixpoint valor_decimal (acc : Z) (s : string) : Z :=
  match s with
  | EmptyString => acc
  | String c s' => valor_decimal (10 * acc + (Z.of_N (codigo c) - 48)) s'
  end.

(** The number of characters after the first point. *)
Fixpoint tras_punto (s : string) : nat :=
  match s with
  | EmptyString => O
  | String c s' => if (codigo c =? 46)%N then String.length s' else tras_punto s'
  end.

Definition MSG_FLOAT : string := "could not convert string to float".

(** [float(s)] on the strings that reach it, made of digit characters and at
    most one point: the decimal number written, when all the digits are the
    decimal digits [0-9]; a superscript digit makes [float] raise
    [ValueError]. *)
Definition py_float (s : string) : res Qc :=
  let digitos := quitar_primer_punto s in
  match digitos with
  | EmptyString => Raise (ValueError MSG_FLOAT)
  | _ =>
      if forallb (entre 48 57) (list_ascii_of_string digitos) then
        Ret (Q2Qc (Qmake (valor_decimal 0 digitos) (Z.to_pos (10 ^ Z.of_nat (tras_punto s)))))
      else Raise (ValueError MSG_FLOAT)
  end.

Fixpoint validar_sueldo (entrada : list string) : lectura Qc :=
  match entrada with
  | [] => FinDeEntrada
  | sueldo_input :: resto =>
      if str_isdigit (quitar_primer_punto sueldo_input) then
        match py_float sueldo_input with
        | Ret sueldo =>
            if bool_decide (0 < sueldo)%Qc then Leido sueldo resto
            else validar_sueldo resto
        | Raise e => Fallo e
        end
      else validar_sueldo resto
  end.

(** The branch [opcion_empleado == '1'] of [main]: the five prompts, then
    [crear_empleado]. *)
Definition flujo_crear (st : GestorEmpleados * gmap string archivo)
    : list string → lectura efecto :=
  ligar validar_cedula (λ cedula,
  ligar (validar_texto "Nombre") (λ nombre,
  ligar validar_sueldo (λ sueldo,
  ligar (validar_texto "Departamento") (λ departamento,
  ligar (validar_texto "Cargo") (λ cargo,
  de_res (crear_empleado st
    {[ "cedula" := VStr cedula; "nombre" := VStr nombre; "sueldo" := VFloat sueldo;
       "departamento" := VStr departamento; "cargo" := VStr cargo ]})))))).

(** One text field of the branch [opcion_empleado == '3']: an empty line
    leaves the field out, a line that is not text is refused. *)
Definition cambio_texto (campo : string) (cambios : gmap string pyval)
    : list string → lectura (gmap string pyval) :=
  ligar input (λ valor entrada,
    Leido (if bool_decide (valor = EmptyString) then cambios
           else if texto_aceptado valor then <[campo := VStr valor]> cambios
           else cambios) entrada).

Definition cambio_sueldo (cambios : gmap string pyval)
    : list string → lectura (gmap string pyval) :=
  ligar input (λ sueldo_input entrada,
    if bool_decide (sueldo_input = EmptyString) then Leido cambios entrada
    else if str_isdigit (quitar_primer_punto sueldo_input) then
      match py_float sueldo_input with
      | Ret sueldo =>
          Leido (if bool_decide (0 < sueldo)%Qc
                 then <["sueldo" := VFloat sueldo]> cambios else cambios) entrada
      | Raise e => Fallo e
      end
    else Leido cambios entrada).

(** The changes the branch assembles, with the cedula it asked for. *)
Definition leer_cambios : list string → lectura (string * gmap string pyval) :=
  ligar validar_cedula (λ cedula,
  ligar (cambio_texto "nombre" ∅) (λ cambios,
  ligar (cambio_sueldo cambios) (λ cambios,
  ligar (cambio_texto "departamento" cambios) (λ cambios,
  ligar (cambio_texto "cargo" cambios) (λ cambios entrada,
  Leido (cedula, cambios) entrada))))).

(** The branch [opcion_empleado == '3']: [modificar_empleado] is called only
    with a non-empty dict of changes. *)
Definition flujo_modificar (self : GestorEmpleados) (dir : gmap string archivo)
    : list string → lectura efecto :=
  ligar leer_cambios (λ '(cedula, cambios),
    if bool_decide (cambios = ∅) then λ entrada, Leido (false, self, dir) entrada
    else de_res (modificar_empleado self dir (VStr cedula) cambios)).

(** The branch [opcion_empleado == '4']: [confirm.lower() == 's']. *)
Definition flujo_eliminar (self : GestorEmpleados) (dir : gmap string archivo)
    : list string → lectura efecto :=
  ligar validar_cedula (λ cedula,
  ligar input (λ confirm,
    if bool_decide (confirm = "s" ∨ confirm = "S")
    then de_res (eliminar_empleado self dir (VStr cedula))
    else λ entrada, Leido (false, self, dir) entrada)).

(** ** Vocabulary of the specification *)

(** The sum of a field over a sequence of details. *)
Definition suma {A} (f : A → Qc) (l : list A) : Qc :=
  foldr (λ x acc, f x + acc)%Qc 0%Qc l.

(** The three aggregates of a payroll are the sums over its details. *)
Definition totales_ok (n : Nomina) : Prop :=
  nom_tot_ing n = suma det_tot_ing (nom_detalles n) ∧
  nom_tot_des n = suma det_tot_des (nom_detalles n) ∧
  nom_neto n = suma det_neto (nom_detalles n).



(** [x], at position [i] of [l], has the greatest key of [l], and every
    earlier item has a strictly smaller one: the first of the greatest. *)
Definition primero_maximo {A} (key : A → Qc) (l : list A) (i : nat) (x : A) : Prop :=
  l !! i = Some x ∧
  (∀ j y, l !! j = Some y → (key y ≤ key x)%Qc) ∧
  (∀ j y, (j < i)%nat → l !! j = Some y → (key y < key x)%Qc).

Definition primero_minimo {A} (key : A → Qc) (l : list A) (i : nat) (x : A) : Prop :=
  l !! i = Some x ∧
  (∀ j y, l !! j = Some y → (key x ≤ key y)%Qc) ∧
  (∀ j y, (j < i)%nat → l !! j = Some y → (key x < key y)%Qc).

(** Two stored details agree on what the report reads. *)
Definition mismos_datos (a b : DetalleDoc) : Prop :=
  dd_id a = dd_id b ∧ dd_empleado a = dd_empleado b ∧ dd_sueldo a = dd_sueldo b ∧
  dd_bono a = dd_bono b ∧ dd_prestamo a = dd_prestamo b.

(** The rules of validation, as the specification words them. A digit is a
    character on which [str.isdigit] holds, a letter is one of [a-z] and
    [A-Z], a space is a white-space character (the class [\s]). *)
Definition tiene_campos (c : gmap string pyval) : Prop :=
  ∀ k, k ∈ CAMPOS → is_Some (c !! k).

Definition sueldo_valido (v : pyval) : Prop :=
  ∃ x, como_numero v = Some x ∧ (0 < x)%Qc.

Definition es_digito (c : ascii) : Prop :=
  (48 ≤ codigo c ≤ 57 ∨ 178 ≤ codigo c ≤ 179 ∨ codigo c = 185)%N.

Definition cedula_valida (v : pyval) : Prop :=
  String.length (py_str v) = 10%nat ∧
  ∀ ch, ch ∈ list_ascii_of_string (py_str v) → es_digito ch.

Definition es_letra (c : ascii) : Prop :=
  (97 ≤ codigo c ≤ 122 ∨ 65 ≤ codigo c ≤ 90)%N.

Definition es_espacio (c : ascii) : Prop :=
  (9 ≤ codigo c ≤ 13 ∨ 28 ≤ codigo c ≤ 32 ∨ codigo c = 133 ∨ codigo c = 160)%N.

Definition es_texto (v : pyval) : Prop := ∃ s, v = VStr s.

Definition texto_valido (v : pyval) : Prop :=
  ∃ s, v = VStr s ∧ s ≠ EmptyString ∧
       ∀ ch, ch ∈ list_ascii_of_string s → es_letra ch ∨ es_espacio ch.

Definition reglas (c : gmap string pyval) : Prop :=
  tiene_campos c ∧ sueldo_valido (item c "sueldo") ∧ cedula_valida (item c "cedula") ∧
  texto_valido (item c "nombre") ∧ texto_valido (item c "departamento") ∧
  texto_valido (item c "cargo").

(** The outcome of the checks, by the first rule that fails. *)
Inductive caso_validar (c : gmap string pyval) : res unit → Prop :=
  | caso_faltan :
      ¬ tiene_campos c → caso_validar c (Raise (ValueError MSG_FALTAN))
  | caso_sueldo :
      tiene_campos c → ¬ sueldo_valido (item c "sueldo") →
      caso_validar c (Raise (ValueError MSG_SUELDO))
  | caso_cedula :
      tiene_campos c → sueldo_valido (item c "sueldo") →
      ¬ cedula_valida (item c "cedula") →
      caso_validar c (Raise (ValueError MSG_CEDULA))
  | caso_nombre :
      tiene_campos c → sueldo_valido (item c "sueldo") →
      cedula_valida (item c "cedula") →
      es_texto (item c "nombre") → ¬ texto_valido (item c "nombre") →
      caso_validar c (Raise (ValueError MSG_NOMBRE))
  | caso_departamento :
      tiene_campos c → sueldo_valido (item c "sueldo") →
      cedula_valida (item c "cedula") → texto_valido (item c "nombre") →
      es_texto (item c "departamento") → ¬ texto_valido (item c "departamento") →
      caso_validar c (Raise (ValueError MSG_DEPARTAMENTO))
  | caso_cargo :
      tiene_campos c → sueldo_valido (item c "sueldo") →
      cedula_valida (item c "cedula") → texto_valido (item c "nombre") →
      texto_valido (item c "departamento") →
      es_texto (item c "cargo") → ¬ texto_valido (item c "cargo") →
      caso_validar c (Raise (ValueError MSG_CARGO))
  | caso_no_texto :
      tiene_campos c → sueldo_valido (item c "sueldo") →
      cedula_valida (item c "cedula") →
      ¬ es_texto (item c "nombre") ∨
      texto_valido (item c "nombre") ∧
        (¬ es_texto (item c "departamento") ∨
         texto_valido (item c "departamento") ∧ ¬ es_texto (item c "cargo")) →
      caso_validar c (Raise (TypeError MSG_RE_TIPO))
  | caso_valido :
      reglas c → caso_validar c (Ret ()).

(** The directory holds two payroll documents of a period, in two files,
    with different run identifiers. *)
Definition dos_documentos (dir : gmap string archivo) (aniomes : string) : Prop :=
  ∃ f1 f2 d1 d2,
    f1 ≠ f2 ∧
    dir !! f1 = Some (Legible (DocNomina d1)) ∧
    dir !! f2 = Some (Legible (DocNomina d2)) ∧
    doc_aniomes d1 = aniomes ∧ doc_aniomes d2 = aniomes ∧
    doc_id d1 ≠ doc_id d2.

(** ** Vocabulary of the further properties *)

(** An employee with no attribute beyond the five of [__init__], and one
    with some other attribute. *)
Definition sin_extras (e : Empleado) : Prop := otros e = ∅.

Definition con_extra (e : Empleado) : Prop :=
  ∃ k, (k ∉ CAMPOS) ∧ is_Some (otros e !! k).

(** The messages of the [TypeError] of [Empleado_kwargs] and of
    [generar_detalle], by name. *)
Definition MSG_KWARGS : string :=
  "__init__() got an unexpected or missing keyword argument".


(** The roster file holds the roster. *)
Definition archivo_al_dia (self : GestorEmpleados) (dir : gmap string archivo) : Prop :=
  dir !! repo_archivo (repo self)
  = Some (Legible (DocEmpleados (Empleado_to_dict <$> empleados self))).

(** No two employees of the roster have equal cedulas ([==]). *)
Definition cedulas_unicas (l : list Empleado) : Prop :=
  ∀ i j e1 e2, l !! i = Some e1 → l !! j = Some e2 →
               py_eq (cedula e1) (cedula e2) = true → i = j.

(** Every employee of the roster, as the dict [to_dict] gives, passes the
    checks of [validate_empleado]. *)
Definition roster_valido (l : list Empleado) : Prop :=
  Forall (λ e, validar (Empleado_to_dict e) = Ret ()) l.

(** Some employee of the roster has this cedula. *)
Definition cedula_registrada (l : list Empleado) (ced : pyval) : Prop :=
  ∃ e, e ∈ l ∧ py_eq (cedula e) ced = true.




(** [sueldo > 1000] on the salary of an employee. *)
Definition sueldo_alto (e : Empleado) : bool :=
  match como_numero (sueldo e) with
  | Some s => bool_decide (dec 1000 1 < s)%Qc
  | None => false
  end.

(** Every character is one of U+0000 .. U+007F. *)
Definition solo_ascii (s : string) : Prop :=
  ∀ ch, ch ∈ list_ascii_of_string s → (codigo ch < 128)%N.

(** What the update dialogue can put under a key of the changes, when every
    line of the input satisfies [P]. *)
Definition valor_del_menu (P : string → Prop) (k : string) (v : pyval) : Prop :=
  k = "sueldo" ∧ (∃ q, v = VFloat q ∧ (0 < q)%Qc) ∨
  (k = "nombre" ∨ k = "departamento" ∨ k = "cargo") ∧
    (∃ s, v = VStr s ∧ texto_aceptado s = true ∧ P s).

Definition cambios_del_menu (P : string → Prop) (cambios : gmap string pyval) : Prop :=
  ∀ k v, cambios !! k = Some v → valor_del_menu P k v.

(** ** Sample data *)

(** A sample employee and the detail of the specification's example. *)
Definition empleado_ana : Empleado :=
  Empleado_init (VStr "0123456789") (VStr "Ana") (VFloat (dec 1000 1))
    (VStr "Ventas") (VStr "Cajera").


(** Sample payroll documents: three details as generation stores them, and
    the same details with other stored derived amounts and totals. *)
Definition doc_detalle (id : Z) (n : string) (s : Z) : DetalleDoc :=
  DetalleNomina_to_dict
    (DetalleNomina_init id (Empleado_init (VStr "") (VStr n) (VFloat (dec s 1))
       (VStr "") (VStr "")) (dec s 1) BONO PRESTAMO).

Definition doc_tres : NominaDoc :=
  mkNominaDoc 3 "202401" (dec 3750 1) (dec 4002 10) (dec 33498 10)
    [doc_detalle 1 "Ana" 900; doc_detalle 2 "Bea" 1200; doc_detalle 3 "Carla" 1500].

Definition alterar (d : DetalleDoc) : DetalleDoc :=
  mkDetalleDoc (dd_id d) (dd_empleado d) (dd_sueldo d) (dd_bono d)
    0%Qc (dec 7 1) (dd_prestamo d) (dec (-3) 1) (dec 99 1).

Definition doc_tres_alterado : NominaDoc :=
  mkNominaDoc 8 "202401" 0%Qc (dec 1 1) (dec (-1) 1) (alterar <$> doc_detalles doc_tres).

(** Sample candidates. *)
Definition candidato (ced nom : string) (s : Z) : gmap string pyval :=
  {[ "cedula" := VStr ced; "nombre" := VStr nom; "sueldo" := VFloat (dec s 1);
     "departamento" := VStr "Ventas"; "cargo" := VStr "Cajera" ]}.

Definition candidato_ana : gmap string pyval := candidato "0123456789" "Ana" 1000.

(** Sample rosters, changes and directories. *)
Definition gestor_vacio : GestorEmpleados := mkGestor RepositorioEmpleados_init [].
Definition gestor_ana : GestorEmpleados := mkGestor RepositorioEmpleados_init [empleado_ana].
Definition cambios_sueldo_negativo : gmap string pyval :=
  {[ "sueldo" := VFloat (dec (-100) 1) ]}.
(** The name [Jos] followed by U+00E9, a letter for [str.isalpha]. *)
Definition nombre_acentuado : string :=
  String "J" (String "o" (String "s" (String (ascii_of_N 233) EmptyString))).
Definition cambios_nombre_acentuado : gmap string pyval :=
  {[ "nombre" := VStr nombre_acentuado ]}.
Definition cambios_cedula : gmap string pyval :=
  {[ "cedula" := VStr "9999999999" ]}.

(** The directory after two generations for January 2024, starting from an
    empty one. *)
Definition directorio_tras (m : res (gmap string archivo)) : gmap string archivo :=
  match m with
  | Ret dir => dir
  | Raise _ => ∅
  end.

Definition dir_primera : gmap string archivo :=
  directorio_tras (generar_nomina_mensual gestor_ana "202401" ∅).
Definition dir_segunda : gmap string archivo :=
  directorio_tras (generar_nomina_mensual gestor_ana "202401" dir_primera).

(** Sample changes with a key that is not an attribute of [Empleado], and
    sample console inputs. *)
Definition cambios_clave_ajena : gmap string pyval :=
  {[ "salario" := VFloat (dec 1200 1) ]}.

Definition gestor_salario : GestorEmpleados :=
  mkGestor RepositorioEmpleados_init [aplicar_cambios empleado_ana cambios_clave_ajena].

Definition entrada_crear : list string :=
  ["12345"; "0987654321"; "Bea 2"; "Bea Luz"; "abc"; "1200.50"; "Ventas"; "Jefa"].

Definition entrada_modificar : list string :=
  ["0123456789"; "Ana Maria"; ""; ""; "Jefa"].

(** What a dialogue returned and what it left unread, for the samples. *)
Definition efecto_leido (m : lectura efecto) : efecto :=
  match m with
  | Leido a _ => a
  | _ => (false, gestor_vacio, ∅)
  end.

Definition resto_leido {A} (m : lectura A) : list string :=
  match m with
  | Leido _ resto => resto
  | _ => []
  end.

(** * Theorems *)

(** ** Arithmetic of one detail *)





(** ** Running totals of a payroll *)

Lemma suma_snoc {A} (f : A → Qc) (l : list A) (x : A) :
  suma f (l ++ [x]) = (suma f l + f x)%Qc.
Proof.
  induction l as [|y l IH]; cbn.
  - ring.
  - unfold suma in IH. rewrite IH. ring.
Qed.

Lemma totales_ok_init id aniomes : totales_ok (Nomina_init id aniomes).
Proof. by repeat split. Qed.

Lemma totales_ok_agregar n d : totales_ok n → totales_ok (agregar_detalle n d).
Proof.
  intros (Hi & Hd & Hn). unfold totales_ok, agregar_detalle.
  cbn [nom_detalles nom_tot_ing nom_tot_des nom_neto].
  rewrite !suma_snoc, Hi, Hd, Hn. done.
Qed.



Lemma totales_ok_generar_detalles l n0 i n :
  totales_ok n0 → generar_detalles n0 i l = Ret n → totales_ok n.
Proof.
  revert n0 i. induction l as [|e l IH]; intros n0 i Hn0; cbn.
  - by intros [= <-].
  - destruct (generar_detalle e i) as [d|x]; cbn; [|done].
    apply IH. by apply totales_ok_agregar.
Qed.



(** ** Statistics of a stored payroll *)

Section extremos.
Context {A : Type} (key : A → Qc).







(** The first of the greatest is unique. *)
Lemma primero_maximo_unico l i x i' x' :
  primero_maximo key l i x → primero_maximo key l i' x' → i = i' ∧ x = x'.
Proof.
  intros (Hi & Hle & Hlt) (Hi' & Hle' & Hlt').
  assert (i = i') as ->; [|split; congruence].
  destruct (Nat.lt_trichotomy i i') as [H|[H|H]]; [|done|].
  - specialize (Hlt' _ _ H Hi). specialize (Hle _ _ Hi').
    by apply Qcle_not_lt in Hle.
  - specialize (Hlt _ _ H Hi'). specialize (Hle' _ _ Hi).
    by apply Qcle_not_lt in Hle'.
Qed.

Lemma primero_minimo_unico l i x i' x' :
  primero_minimo key l i x → primero_minimo key l i' x' → i = i' ∧ x = x'.
Proof.
  intros (Hi & Hle & Hlt) (Hi' & Hle' & Hlt').
  assert (i = i') as ->; [|split; congruence].
  destruct (Nat.lt_trichotomy i i') as [H|[H|H]]; [|done|].
  - specialize (Hlt' _ _ H Hi). specialize (Hle _ _ Hi').
    by apply Qcle_not_lt in Hle.
  - specialize (Hlt _ _ H Hi'). specialize (Hle' _ _ Hi).
    by apply Qcle_not_lt in Hle'.
Qed.
End extremos.



Lemma foldl_suma {A} (f : A → Qc) (a : Qc) (l : list A) :
  foldl (λ acc x, acc + f x)%Qc a l = (a + suma f l)%Qc.
Proof.
  revert a. induction l as [|x l IH]; intros a; cbn.
  - ring.
  - rewrite IH. unfold suma. ring.
Qed.

Lemma suma_fmap {A B} (f : A → Qc) (g : B → A) (l : list B) :
  suma f (g <$> l) = suma (f ∘ g) l.
Proof. induction l as [|x l IH]; cbn; [done|]. unfold suma in IH. by rewrite IH. Qed.

Lemma estadisticas_desde_detalles doc :
  estadisticas doc =
  let ds := reconstruir_detalle <$> doc_detalles doc in
  mkEstadisticas (length ds)
    (foldl (λ acumulado detalle, acumulado + det_neto detalle)%Qc 0%Qc ds)
    (match det_sueldo <$> ds with
     | [] => 0%Qc
     | _ => (foldl Qcplus 0 (det_sueldo <$> ds)
             / Qc_of_Z (Z.of_nat (length (det_sueldo <$> ds))))%Qc
     end)
    ((λ d, nombre (det_empleado d)) <$> filter (λ d, UMBRAL_ALTO < det_sueldo d)%Qc ds)
    (py_max det_neto ds) (py_min det_neto ds).
Proof. reflexivity. Qed.




(** On equal net pays the first detail is reported, for both extremes. *)
Example estadisticas_empate :
  let doc := mkNominaDoc 1 "202401" 0%Qc 0%Qc 0%Qc
               [doc_detalle 1 "Ana" 900; doc_detalle 2 "Bea" 900] in
  (det_id <$> mayor_neto (estadisticas doc)) = Some 1 ∧
  (det_id <$> menor_neto (estadisticas doc)) = Some 1.
Proof. split; vm_compute; reflexivity. Qed.

(** C10. Two stored payroll documents whose details agree on id, employee
    name, base salary, bonus and loan deduction give the same report,
    whatever their stored derived amounts and totals are. *)
Theorem C10_estadisticas_solo_entradas (aniomes : string)
    (dir1 dir2 : gmap string archivo) (doc1 doc2 : NominaDoc) :
  dir1 !! nombre_archivo_nomina aniomes = Some (Legible (DocNomina doc1)) →
  dir2 !! nombre_archivo_nomina aniomes = Some (Legible (DocNomina doc2)) →
  Forall2 mismos_datos (doc_detalles doc1) (doc_detalles doc2) →
  estadisticas doc1 = estadisticas doc2 ∧
  consultar_estadisticas_nomina aniomes dir1 = Ret (Reporte (estadisticas doc1)) ∧
  consultar_estadisticas_nomina aniomes dir2 = consultar_estadisticas_nomina aniomes dir1.
Proof.
  intros H1 H2 Hd.
  assert (He : estadisticas doc1 = estadisticas doc2).
  { rewrite !estadisticas_desde_detalles.
    assert (reconstruir_detalle <$> doc_detalles doc1
            = reconstruir_detalle <$> doc_detalles doc2) as ->; [|done].
    induction Hd as [|a b l1 l2 (Hi & He & Hs & Hb & Hp) _ IH]; [done|].
    rewrite !fmap_cons, IH. f_equal.
    unfold reconstruir_detalle. by rewrite Hi, He, Hs, Hb, Hp. }
  split; [done|].
  unfold consultar_estadisticas_nomina. rewrite H1, H2. cbn. by rewrite He.
Qed.

Lemma C10_estadisticas_solo_entradas_witness :
  estadisticas doc_tres = estadisticas doc_tres_alterado ∧ doc_tres ≠ doc_tres_alterado.
Proof.
  split; [|done].
  refine (proj1 (C10_estadisticas_solo_entradas "202401"
    {[ nombre_archivo_nomina "202401" := Legible (DocNomina doc_tres) ]}
    {[ nombre_archivo_nomina "202401" := Legible (DocNomina doc_tres_alterado) ]}
    doc_tres doc_tres_alterado _ _ _)).
  - apply lookup_singleton_eq.
  - apply lookup_singleton_eq.
  - repeat constructor.
Defined.

(** ** Validation of a candidate *)

Lemma entre_spec lo hi c : entre lo hi c = true ↔ (lo ≤ codigo c ≤ hi)%N.
Proof. unfold entre. rewrite andb_true_iff, !N.leb_le. done. Qed.

Lemma char_isdigit_spec c : char_isdigit c = true ↔ es_digito c.
Proof.
  unfold char_isdigit, es_digito. rewrite !orb_true_iff, !entre_spec. lia.
Qed.

Lemma re_letra_o_espacio_spec c :
  re_letra_o_espacio c = true ↔ es_letra c ∨ es_espacio c.
Proof.
  unfold re_letra_o_espacio, re_espacio, es_letra, es_espacio.
  rewrite !orb_true_iff, !entre_spec. lia.
Qed.

Lemma forallb_chars (p : ascii → bool) (P : ascii → Prop) s :
  (∀ c, p c = true ↔ P c) →
  forallb p (list_ascii_of_string s) = true ↔
  ∀ ch, ch ∈ list_ascii_of_string s → P ch.
Proof.
  intros Hp. rewrite forallb_forall. setoid_rewrite Hp.
  by setoid_rewrite list_elem_of_In.
Qed.

Lemma str_isdigit_spec s :
  str_isdigit s = true ↔
  s ≠ EmptyString ∧ ∀ ch, ch ∈ list_ascii_of_string s → es_digito ch.
Proof.
  destruct s as [|a s]; [naive_solver|].
  unfold str_isdigit. rewrite (forallb_chars _ es_digito) by apply char_isdigit_spec.
  naive_solver.
Qed.

Lemma fullmatch_texto_spec s :
  fullmatch_texto s = true ↔
  s ≠ EmptyString ∧ ∀ ch, ch ∈ list_ascii_of_string s → es_letra ch ∨ es_espacio ch.
Proof.
  destruct s as [|a s]; [naive_solver|].
  unfold fullmatch_texto.
  rewrite (forallb_chars _ (λ c, es_letra c ∨ es_espacio c)) by apply re_letra_o_espacio_spec.
  naive_solver.
Qed.

Lemma campos_spec c :
  forallb (λ k, bool_decide (is_Some (c !! k))) CAMPOS = true ↔ tiene_campos c.
Proof.
  rewrite forallb_forall. unfold tiene_campos.
  setoid_rewrite bool_decide_eq_true. by setoid_rewrite list_elem_of_In.
Qed.

Lemma sueldo_spec v :
  negb (isinstance_int_float v) || no_positivo v = false ↔ sueldo_valido v.
Proof.
  unfold sueldo_valido, no_positivo.
  destruct v as [|b|z|q|s]; cbn [isinstance_int_float como_numero negb orb];
    try (split; [done|by intros (x & [=] & _)]).
  all: rewrite bool_decide_eq_false; split.
  all: try (intros H; eexists; split; [done|by apply Qcnot_le_lt]).
  all: intros (x & [= <-] & H); by apply Qclt_not_le.
Qed.

Lemma cedula_spec v :
  negb (str_isdigit (py_str v)) || negb (bool_decide (String.length (py_str v) = 10%nat)) = false
  ↔ cedula_valida v.
Proof.
  unfold cedula_valida.
  rewrite orb_false_iff, !negb_false_iff, bool_decide_eq_true, str_isdigit_spec.
  split; [naive_solver|]. intros [Hl Hd]. split; [|done]. split; [|done].
  intros E. by rewrite E in Hl.
Qed.

Lemma texto_spec v :
  (texto_valido v → re_fullmatch_texto v = Ret true) ∧
  (es_texto v → ¬ texto_valido v → re_fullmatch_texto v = Ret false) ∧
  (¬ es_texto v → re_fullmatch_texto v = Raise (TypeError MSG_RE_TIPO)).
Proof.
  unfold texto_valido, es_texto. split; [|split].
  - intros (s & -> & H). cbn. f_equal. by apply fullmatch_texto_spec.
  - intros [s ->] H. cbn. f_equal. apply not_true_is_false.
    rewrite fullmatch_texto_spec. naive_solver.
  - intros H. destruct v; try done. destruct H. eauto.
Qed.


Lemma texto_valido_es_texto v : texto_valido v → es_texto v.
Proof. intros (s & -> & _). by exists s. Qed.

Lemma texto_casos v :
  (texto_valido v ∧ re_fullmatch_texto v = Ret true) ∨
  (es_texto v ∧ ¬ texto_valido v ∧ re_fullmatch_texto v = Ret false) ∨
  (¬ es_texto v ∧ ¬ texto_valido v ∧ re_fullmatch_texto v = Raise (TypeError MSG_RE_TIPO)).
Proof.
  destruct v as [| b | z | q | s];
    try (right; right; split; [by intros [s [=]]|split; [by intros (s & [=] & _)|done]]).
  destruct (fullmatch_texto s) eqn:E.
  - left. split; [|by cbn; rewrite E]. exists s. split; [done|].
    by apply fullmatch_texto_spec.
  - right; left. split; [by exists s|]. split; [|by cbn; rewrite E].
    intros (s' & [= <-] & H). apply fullmatch_texto_spec in H. congruence.
Qed.

Lemma validar_caso c : caso_validar c (validar c).
Proof.
  unfold validar.
  destruct (forallb _ CAMPOS) eqn:Ec; cbn [negb].
  2:{ apply caso_faltan. rewrite <- campos_spec. congruence. }
  apply campos_spec in Ec.
  destruct (negb (isinstance_int_float _) || no_positivo _) eqn:Es.
  { apply caso_sueldo; [done|]. rewrite <- sueldo_spec. congruence. }
  apply sueldo_spec in Es.
  destruct (negb (str_isdigit _) || negb _) eqn:Ed.
  { apply caso_cedula; [done..|]. rewrite <- cedula_spec. congruence. }
  apply cedula_spec in Ed.
  destruct (texto_casos (item c "nombre")) as [[Hn ->]|[(Hn & Hn' & ->)|(Hn & Hn' & ->)]];
    cbn; [|by apply caso_nombre|apply caso_no_texto; auto].
  destruct (texto_casos (item c "departamento")) as [[Hp ->]|[(Hp & Hp' & ->)|(Hp & Hp' & ->)]];
    cbn; [|by apply caso_departamento|apply caso_no_texto; auto].
  destruct (texto_casos (item c "cargo")) as [[Hg ->]|[(Hg & Hg' & ->)|(Hg & Hg' & ->)]];
    cbn; [|by apply caso_cargo|apply caso_no_texto; auto].
  by apply caso_valido.
Qed.



(** ** The roster *)

Lemma getattr_setattr e k v key :
  getattr (setattr e k v) key = if decide (k = key) then Some v else getattr e key.
Proof.
  unfold getattr, setattr.
  repeat (case_decide; simplify_eq; cbn [cedula nombre sueldo departamento cargo otros];
          try done).
  all: by rewrite ?lookup_insert_eq, ?lookup_insert_ne.
Qed.

Lemma getattr_aplicar_cambios e cambios key :
  getattr (aplicar_cambios e cambios) key =
  match cambios !! key with
  | Some v => Some v
  | None => getattr e key
  end.
Proof.
  unfold aplicar_cambios. revert key.
  apply (map_fold_weak_ind (λ r m, ∀ key, getattr r key =
    match m !! key with Some v => Some v | None => getattr e key end)).
  - intros key. by rewrite lookup_empty.
  - intros k v m r Hk IH key. rewrite getattr_setattr, lookup_insert.
    case_decide; [done|]. apply IH.
Qed.



Lemma buscar_Some l ced i :
  buscar l ced = Some i →
  ∃ e, l !! i = Some e ∧ py_eq (cedula e) ced = true ∧
       ∀ j e', (j < i)%nat → l !! j = Some e' → py_eq (cedula e') ced = false.
Proof.
  revert i. induction l as [|e l IH]; intros i; cbn; [done|].
  destruct (py_eq (cedula e) ced) eqn:E.
  - intros [= <-]. exists e. repeat split; [done|]. intros j e' Hj. lia.
  - destruct (buscar l ced) as [i'|]; [|done]. cbn. intros [= <-].
    destruct (IH i' eq_refl) as (e0 & H0 & H1 & H2). exists e0.
    repeat split; [done..|]. intros [|j] e' Hj; cbn; [by intros [= <-]|].
    apply H2. lia.
Qed.

Lemma buscar_None l ced :
  buscar l ced = None ↔ ∀ e, e ∈ l → py_eq (cedula e) ced = false.
Proof.
  induction l as [|e l IH]; cbn.
  - split; [|done]. intros _ e He. by apply elem_of_nil in He.
  - destruct (py_eq (cedula e) ced) eqn:E.
    + split; [done|]. intros H. specialize (H e (list_elem_of_here _ _)). congruence.
    + destruct (buscar l ced) as [i|] eqn:Eb; cbn.
      * split; [done|]. intros H. exfalso.
        assert (Some i = None); [|done]. apply IH. intros e' He'. apply H. by right.
      * split; [|done]. intros _ e' [->|He']%elem_of_cons; [done|]. by apply IH.
Qed.

(** Decoding a roster record and encoding it again. *)
Lemma Empleado_kwargs_to_dict d e :
  Empleado_kwargs d = Ret e → Empleado_to_dict e = d.
Proof.
  unfold Empleado_kwargs. case_decide as Hd; [|done]. intros [= <-].
  apply map_eq. intros k. unfold Empleado_to_dict, Empleado_init, item.
  cbn [cedula nombre sueldo departamento cargo otros].
  assert (Hk : ∀ k', k' ∈ CAMPOS → is_Some (d !! k')).
  { intros k' Hk'. apply elem_of_dom. rewrite Hd. by apply elem_of_list_to_set. }
  assert (Hn : k ∉ CAMPOS → d !! k = None).
  { intros Hk'. apply not_elem_of_dom. rewrite Hd. by rewrite elem_of_list_to_set. }
  rewrite !lookup_insert. unfold CAMPOS in *.
  repeat (destruct (decide (_ = k)) as [<-|?];
    [match goal with
     | |- _ = d !! ?x => destruct (Hk x ltac:(set_solver)) as [v ->]; done
     end|]).
  rewrite lookup_empty. symmetry. apply Hn. set_solver.
Qed.

Lemma mapM_res_to_dict datos l :
  mapM_res Empleado_kwargs datos = Ret l → Empleado_to_dict <$> l = datos.
Proof.
  revert l. induction datos as [|d datos IH]; intros l; cbn.
  - by intros [= <-].
  - destruct (Empleado_kwargs d) as [e|x] eqn:Ee; cbn; [|done].
    destruct (mapM_res Empleado_kwargs datos) as [l'|x]; cbn; [|done].
    intros [= <-]. cbn. f_equal; [by apply Empleado_kwargs_to_dict|by apply IH].
Qed.

Lemma mapM_res_bien_formados datos :
  Forall (λ d : gmap string pyval, dom d = list_to_set CAMPOS) datos →
  ∃ l, mapM_res Empleado_kwargs datos = Ret l.
Proof.
  induction 1 as [|d datos Hd _ [l IH]]; cbn; [by eexists|].
  assert (∃ e, Empleado_kwargs d = Ret e) as [e ->].
  { unfold Empleado_kwargs. rewrite decide_True by done. by eexists. }
  cbn. rewrite IH. cbn. by eexists.
Qed.

(** C9. Loading the roster at startup: when the roster file is missing the
    roster is empty; when it holds a JSON array of records with exactly the
    five fields, the roster is the sequence of employees decoded from the
    records, in order; when it does not hold a JSON document, the load raises
    the decoder's error. *)
Theorem C9_cargar_empleados (r : RepositorioEmpleados) (dir : gmap string archivo) :
  (dir !! repo_archivo r = None →
     cargar_empleados r dir = Ret [] ∧
     GestorEmpleados_init r dir = Ret (mkGestor r [])) ∧
  (∀ datos,
     dir !! repo_archivo r = Some (Legible (DocEmpleados datos)) →
     Forall (λ d : gmap string pyval, dom d = list_to_set CAMPOS) datos →
     ∃ l, cargar_empleados r dir = Ret l ∧
          GestorEmpleados_init r dir = Ret (mkGestor r l) ∧
          Empleado_to_dict <$> l = datos) ∧
  (dir !! repo_archivo r = Some Ilegible →
     cargar_empleados r dir = Raise JSONDecodeError ∧
     GestorEmpleados_init r dir = Raise JSONDecodeError).
Proof.
  unfold GestorEmpleados_init, cargar_empleados, cargar_datos.
  split; [|split].
  - by intros ->.
  - intros datos -> Hd. cbn.
    destruct (mapM_res_bien_formados datos Hd) as [l Hl].
    exists l. rewrite Hl. split; [done|]. split; [done|]. by apply mapM_res_to_dict.
  - by intros ->.
Qed.

Lemma C9_cargar_empleados_witness :
  cargar_empleados RepositorioEmpleados_init ∅ = Ret [] ∧
  GestorEmpleados_init RepositorioEmpleados_init ∅ = Ret gestor_vacio.
Proof.
  apply (proj1 (C9_cargar_empleados RepositorioEmpleados_init ∅)). reflexivity.
Defined.

(** A roster file that is not a JSON document: the load raises, it does not
    give the empty roster. *)
Lemma C9_contraejemplo :
  cargar_empleados RepositorioEmpleados_init {[ "empleados.json" := Ilegible ]}
    = Raise JSONDecodeError ∧
  cargar_empleados RepositorioEmpleados_init {[ "empleados.json" := Ilegible ]} ≠ Ret [] ∧
  ¬ returns (GestorEmpleados_init RepositorioEmpleados_init
               {[ "empleados.json" := Ilegible ]}).
Proof.
  split; [reflexivity|]. split; [discriminate|]. by intros [g [=]].
Qed.




(** C5. An update is applied and saved without any check: a negative salary,
    or a name with a letter outside [a-z] and [A-Z], is stored although
    validation rejects the resulting record. *)
Theorem C5_modificar_sin_validar :
  (∃ e' dir',
     modificar_empleado gestor_ana ∅ (VStr "0123456789") cambios_sueldo_negativo
       = Ret (true, mkGestor RepositorioEmpleados_init [e'], dir') ∧
     sueldo e' = VFloat (dec (-100) 1) ∧
     dir' !! "empleados.json" = Some (Legible (DocEmpleados [Empleado_to_dict e'])) ∧
     validar (Empleado_to_dict e') = Raise (ValueError MSG_SUELDO)) ∧
  (∃ e' dir',
     modificar_empleado gestor_ana ∅ (VStr "0123456789") cambios_nombre_acentuado
       = Ret (true, mkGestor RepositorioEmpleados_init [e'], dir') ∧
     nombre e' = VStr nombre_acentuado ∧
     validar (Empleado_to_dict e') = Raise (ValueError MSG_NOMBRE)) ∧
  validar (Empleado_to_dict empleado_ana) = Ret ().
Proof.
  split; [|split].
  - exists (aplicar_cambios empleado_ana cambios_sueldo_negativo),
      (guardar_empleados (mkGestor RepositorioEmpleados_init
         [aplicar_cambios empleado_ana cambios_sueldo_negativo]) ∅).
    split; [reflexivity|]. repeat split; vm_compute; reflexivity.
  - exists (aplicar_cambios empleado_ana cambios_nombre_acentuado),
      (guardar_empleados (mkGestor RepositorioEmpleados_init
         [aplicar_cambios empleado_ana cambios_nombre_acentuado]) ∅).
    split; [reflexivity|]. repeat split; vm_compute; reflexivity.
  - vm_compute. reflexivity.
Qed.

(** An update that supplies the key ["cedula"] changes the cedula. *)
Lemma C6_contraejemplo :
  ∃ e' dir',
    modificar_empleado gestor_ana ∅ (VStr "0123456789") cambios_cedula
      = Ret (true, mkGestor RepositorioEmpleados_init [e'], dir') ∧
    cedula empleado_ana = VStr "0123456789" ∧
    cedula e' = VStr "9999999999" ∧
    cedula e' ≠ cedula empleado_ana.
Proof.
  exists (aplicar_cambios empleado_ana cambios_cedula),
    (guardar_empleados (mkGestor RepositorioEmpleados_init
       [aplicar_cambios empleado_ana cambios_cedula]) ∅).
  split; [reflexivity|]. split; [reflexivity|].
  assert (H : cedula (aplicar_cambios empleado_ana cambios_cedula) = VStr "9999999999")
    by (vm_compute; reflexivity).
  split; [exact H|]. rewrite H. discriminate.
Qed.

(** C6. A successful update changes one employee, the first with the given
    cedula: each supplied key takes its new value, every attribute that is
    not supplied is as before, in particular the cedula when ["cedula"] is
    not among the supplied keys, and every other employee is as before;
    create only appends to the roster and delete only removes from it. *)
Theorem C6_modificar_marco :
  (∀ self dir ced cambios self' dir',
     modificar_empleado self dir ced cambios = Ret (true, self', dir') →
     ∃ i e e',
       empleados self !! i = Some e ∧ py_eq (cedula e) ced = true ∧
       empleados self' = <[i := e']> (empleados self) ∧
       (∀ key v, cambios !! key = Some v → getattr e' key = Some v) ∧
       (∀ key, cambios !! key = None → getattr e' key = getattr e key) ∧
       (cambios !! "cedula" = None → cedula e' = cedula e) ∧
       (∀ j, j ≠ i → empleados self' !! j = empleados self !! j)) ∧
  (∀ self dir c b self' dir',
     crear_empleado (self, dir) c = Ret (b, self', dir') →
     empleados self `prefix_of` empleados self') ∧
  (∀ self dir ced b self' dir',
     eliminar_empleado self dir ced = Ret (b, self', dir') →
     empleados self' `sublist_of` empleados self).
Proof.
  split; [|split].
  - intros self dir ced cambios self' dir'. unfold modificar_empleado.
    destruct (buscar (empleados self) ced) as [i|] eqn:Hb; [|done].
    intros [= <- _]. cbn [empleados].
    destruct (buscar_Some _ _ _ Hb) as (e & Hi & He & _).
    exists i, e, (aplicar_cambios e cambios).
    split; [done|]. split; [done|].
    split.
    { rewrite list_insert_alter. apply list_alter_ext; [|done].
      intros x Hx. congruence. }
    split; [intros key v Hk; by rewrite getattr_aplicar_cambios, Hk|].
    split; [intros key Hk; by rewrite getattr_aplicar_cambios, Hk|].
    split.
    { intros Hk. pose proof (getattr_aplicar_cambios e cambios "cedula") as H.
      rewrite Hk in H. by injection H. }
    intros j Hj. by apply list_lookup_alter_ne.
  - intros self dir c b self' dir'. unfold crear_empleado, validate_empleado.
    destruct (validar c); cbn; [|done].
    destruct (existsb _ _); [by intros [= _ <- _]|].
    destruct (Empleado_kwargs c); cbn; [|done].
    intros [= _ <- _]. cbn. by apply prefix_app_r.
  - intros self dir ced b self' dir'. unfold eliminar_empleado.
    destruct (buscar _ _); intros [= _ <- _]; cbn; [apply sublist_delete|done].
Qed.

Lemma C6_modificar_marco_witness :
  ∃ i e e',
    empleados gestor_ana !! i = Some e ∧
    py_eq (cedula e) (VStr "0123456789") = true ∧
    [aplicar_cambios empleado_ana cambios_sueldo_negativo] = <[i := e']> (empleados gestor_ana) ∧
    (∀ key v, cambios_sueldo_negativo !! key = Some v → getattr e' key = Some v) ∧
    (∀ key, cambios_sueldo_negativo !! key = None → getattr e' key = getattr e key) ∧
    (cambios_sueldo_negativo !! "cedula" = None → cedula e' = cedula e) ∧
    (∀ j, j ≠ i → [aplicar_cambios empleado_ana cambios_sueldo_negativo] !! j
                   = empleados gestor_ana !! j).
Proof.
  apply (proj1 C6_modificar_marco gestor_ana ∅ (VStr "0123456789")
           cambios_sueldo_negativo
           (mkGestor RepositorioEmpleados_init
              [aplicar_cambios empleado_ana cambios_sueldo_negativo])
           (guardar_empleados
              (mkGestor RepositorioEmpleados_init
                 [aplicar_cambios empleado_ana cambios_sueldo_negativo]) ∅)).
  reflexivity.
Defined.

(** ** Generation of the monthly payroll *)

Lemma generar_detalles_id n i l n' :
  generar_detalles n i l = Ret n' →
  nom_id n' = nom_id n ∧ nom_aniomes n' = nom_aniomes n.
Proof.
  revert n i. induction l as [|e l IH]; intros n i; cbn.
  - by intros [= <-].
  - destruct (generar_detalle e i) as [d|x]; cbn; [|done].
    intros H. by destruct (IH _ _ H) as [-> ->].
Qed.

Lemma generar_nomina_mensual_Ret self aniomes dir dir' :
  empleados self ≠ [] →
  generar_nomina_mensual self aniomes dir = Ret dir' →
  ∃ doc, dir' = <[nombre_archivo_nomina aniomes := Legible (DocNomina doc)]> dir ∧
         doc_id doc = Z.of_nat (size dir) + 1 ∧ doc_aniomes doc = aniomes.
Proof.
  unfold generar_nomina_mensual, consultar_empleados.
  destruct (empleados self) as [|e l]; [done|]. intros _.
  destruct (generar_detalles _ 1 (e :: l)) as [n|x] eqn:Hn; cbn; [|done].
  intros [= <-]. eexists. split; [done|].
  destruct (generar_detalles_id _ _ _ _ Hn) as [Hi Ha].
  cbn [Nomina_to_dict doc_id doc_aniomes]. by rewrite Hi, Ha.
Qed.

(** C8. Two generations for the same period write the same file: after the
    second call the directory has the same file names as after the first,
    the file of the period holds the document of the second call, and every
    other file is untouched. The run identifier is the number of directory
    entries before the call plus one, so the second identifier is the first
    plus one when the first call created the file, and the same as the first
    when the file existed before. *)
Theorem C8_segunda_generacion_sobrescribe
    (self1 self2 : GestorEmpleados) (aniomes : string)
    (dir dir1 dir2 : gmap string archivo) :
  empleados self1 ≠ [] → empleados self2 ≠ [] →
  generar_nomina_mensual self1 aniomes dir = Ret dir1 →
  generar_nomina_mensual self2 aniomes dir1 = Ret dir2 →
  ∃ doc1 doc2,
    dir1 !! nombre_archivo_nomina aniomes = Some (Legible (DocNomina doc1)) ∧
    dir2 !! nombre_archivo_nomina aniomes = Some (Legible (DocNomina doc2)) ∧
    dom dir2 = dom dir1 ∧
    (∀ g, g ≠ nombre_archivo_nomina aniomes → dir2 !! g = dir !! g) ∧
    doc_aniomes doc1 = aniomes ∧ doc_aniomes doc2 = aniomes ∧
    doc_id doc1 = Z.of_nat (size dir) + 1 ∧
    doc_id doc2 = Z.of_nat (size dir1) + 1 ∧
    (dir !! nombre_archivo_nomina aniomes = None → doc_id doc2 = doc_id doc1 + 1) ∧
    (is_Some (dir !! nombre_archivo_nomina aniomes) → doc_id doc2 = doc_id doc1).
Proof.
  intros H1 H2 G1 G2.
  destruct (generar_nomina_mensual_Ret _ _ _ _ H1 G1) as (doc1 & -> & Hi1 & Ha1).
  destruct (generar_nomina_mensual_Ret _ _ _ _ H2 G2) as (doc2 & -> & Hi2 & Ha2).
  exists doc1, doc2.
  split; [apply lookup_insert_eq|]. split; [apply lookup_insert_eq|].
  split; [rewrite !dom_insert_L; set_solver|].
  split; [intros g Hg; by rewrite !lookup_insert_ne|].
  do 4 (split; [done|]). split.
  - intros Hn. rewrite Hi2, Hi1, map_size_insert_None by done. lia.
  - intros Hs. rewrite Hi2, Hi1, map_size_insert_Some by done. lia.
Qed.

(** Two generations for January 2024 from an empty directory: one payroll
    document is stored, not two. *)
Lemma C8_contraejemplo :
  generar_nomina_mensual gestor_ana "202401" ∅ = Ret dir_primera ∧
  generar_nomina_mensual gestor_ana "202401" dir_primera = Ret dir_segunda ∧
  size dir_segunda = 1%nat ∧
  ¬ dos_documentos dir_segunda "202401".
Proof.
  assert (G1 : generar_nomina_mensual gestor_ana "202401" ∅ = Ret dir_primera)
    by (vm_compute; reflexivity).
  assert (G2 : generar_nomina_mensual gestor_ana "202401" dir_primera = Ret dir_segunda)
    by (vm_compute; reflexivity).
  split; [exact G1|]. split; [exact G2|].
  assert (Hg : empleados gestor_ana ≠ []) by discriminate.
  destruct (generar_nomina_mensual_Ret gestor_ana "202401" ∅ dir_primera Hg G1) as (doc1 & E1 & _).
  destruct (generar_nomina_mensual_Ret gestor_ana "202401" dir_primera dir_segunda Hg G2) as (doc2 & E2 & _).
  rewrite E2, E1, insert_insert_eq, insert_empty. split.
  - apply map_size_singleton.
  - intros (f1 & f2 & d1 & d2 & Hne & L1 & L2 & _).
    apply lookup_singleton_Some in L1 as [<- _].
    apply lookup_singleton_Some in L2 as [<- _]. exact (Hne eq_refl).
Qed.

Lemma C8_segunda_generacion_sobrescribe_witness :
  ∃ doc1 doc2,
    dir_primera !! nombre_archivo_nomina "202401" = Some (Legible (DocNomina doc1)) ∧
    dir_segunda !! nombre_archivo_nomina "202401" = Some (Legible (DocNomina doc2)) ∧
    dom dir_segunda = dom dir_primera ∧
    doc_id doc2 = doc_id doc1 + 1.
Proof.
  assert (Hg : empleados gestor_ana ≠ []) by discriminate.
  assert (G1 : generar_nomina_mensual gestor_ana "202401" ∅ = Ret dir_primera)
    by (vm_compute; reflexivity).
  assert (G2 : generar_nomina_mensual gestor_ana "202401" dir_primera = Ret dir_segunda)
    by (vm_compute; reflexivity).
  destruct (C8_segunda_generacion_sobrescribe gestor_ana gestor_ana "202401" ∅
              dir_primera dir_segunda Hg Hg G1 G2)
    as (doc1 & doc2 & H1 & H2 & H3 & _ & _ & _ & _ & _ & H4 & _).
  exists doc1, doc2. split; [exact H1|]. split; [exact H2|]. split; [exact H3|].
  apply H4. apply lookup_empty.
Defined.

(** ** Persistence and invariants of the roster *)

Lemma validar_Ret_si_reglas c : reglas c → validar c = Ret ().
Proof.
  pose proof (texto_valido_es_texto (item c "nombre")).
  pose proof (texto_valido_es_texto (item c "departamento")).
  pose proof (texto_valido_es_texto (item c "cargo")).
  intros Hr. destruct (validar_caso c); unfold reglas in *; try done; tauto.
Qed.

Lemma reglas_si_validar_Ret c : validar c = Ret () → reglas c.
Proof. intros H. destruct (validar_caso c); by try discriminate. Qed.

Lemma dom_Empleado_to_dict e :
  dom (Empleado_to_dict e) = list_to_set CAMPOS ∪ dom (otros e).
Proof.
  unfold Empleado_to_dict, CAMPOS. rewrite !dom_insert_L. cbn. set_solver.
Qed.

Lemma Empleado_to_dict_kwargs e :
  sin_extras e → Empleado_kwargs (Empleado_to_dict e) = Ret e.
Proof.
  intros He. unfold Empleado_kwargs.
  rewrite decide_True.
  2:{ rewrite dom_Empleado_to_dict, He, dom_empty_L. set_solver. }
  f_equal. destruct e as [c n s d g o]. unfold sin_extras in He. cbn in He. subst o.
  reflexivity.
Qed.

Lemma mapM_res_to_dict_kwargs l :
  Forall sin_extras l → mapM_res Empleado_kwargs (Empleado_to_dict <$> l) = Ret l.
Proof.
  induction 1 as [|e l He _ IH]; [done|].
  cbn. rewrite Empleado_to_dict_kwargs by done. cbn.
  change (fmap Empleado_to_dict l) with (Empleado_to_dict <$> l).
  by rewrite IH.
Qed.

Lemma cargar_tras_guardar_datos self dir :
  cargar_datos (repo self) (guardar_empleados self dir)
  = Ret (DocEmpleados (Empleado_to_dict <$> empleados self)).
Proof.
  unfold cargar_datos, guardar_empleados, guardar_datos.
  by rewrite lookup_insert_eq.
Qed.

(** X1. Saving the roster and loading it again gives back the same
    employees, in the same order, when no employee carries an attribute
    beyond the five of [__init__]; whatever the directory held before. *)
Theorem guardar_cargar_ida_y_vuelta (self : GestorEmpleados) (dir : gmap string archivo) :
  Forall sin_extras (empleados self) →
  cargar_empleados (repo self) (guardar_empleados self dir) = Ret (empleados self) ∧
  GestorEmpleados_init (repo self) (guardar_empleados self dir) = Ret self.
Proof.
  intros H. unfold GestorEmpleados_init, cargar_empleados.
  rewrite cargar_tras_guardar_datos. cbn.
  rewrite mapM_res_to_dict_kwargs by done. cbn. split; [done|]. by destruct self.
Qed.

Lemma Empleado_kwargs_Raise d x :
  Empleado_kwargs d = Raise x → x = TypeError MSG_KWARGS.
Proof. unfold Empleado_kwargs. case_decide; [done|]. by intros [= <-]. Qed.

Lemma mapM_res_Raise datos :
  (∃ d, d ∈ datos ∧ dom d ≠ list_to_set CAMPOS) →
  mapM_res Empleado_kwargs datos = Raise (TypeError MSG_KWARGS).
Proof.
  induction datos as [|d datos IH]; intros (d0 & Hin & Hd0).
  - by apply elem_of_nil in Hin.
  - cbn. destruct (Empleado_kwargs d) as [e|x] eqn:Ed; cbn.
    + assert (dom d = list_to_set CAMPOS).
      { unfold Empleado_kwargs in Ed. by case_decide. }
      apply elem_of_cons in Hin as [->|Hin]; [done|].
      rewrite IH; [done|]. by exists d0.
    + by rewrite (Empleado_kwargs_Raise _ _ Ed).
Qed.

(** A saved roster with an employee that carries any other attribute cannot
    be loaded: building the employees raises [TypeError]. *)
Lemma atributo_extra_impide_cargar (self : GestorEmpleados) (dir : gmap string archivo) :
  (∃ e, e ∈ empleados self ∧ con_extra e) →
  cargar_empleados (repo self) (guardar_empleados self dir) = Raise (TypeError MSG_KWARGS) ∧
  GestorEmpleados_init (repo self) (guardar_empleados self dir) = Raise (TypeError MSG_KWARGS).
Proof.
  intros (e & He & k & Hk & Ho).
  assert (H : cargar_empleados (repo self) (guardar_empleados self dir)
              = Raise (TypeError MSG_KWARGS)).
  { unfold cargar_empleados. rewrite cargar_tras_guardar_datos. cbn.
    apply mapM_res_Raise. exists (Empleado_to_dict e). split.
    - by apply list_elem_of_fmap_2.
    - rewrite dom_Empleado_to_dict. intros Heq.
      assert (k ∈ list_to_set (C:=gset string) CAMPOS ∪ dom (otros e)) as Hin.
      { apply elem_of_union_r. by apply elem_of_dom. }
      rewrite Heq in Hin. by apply elem_of_list_to_set in Hin. }
  split; [done|]. unfold GestorEmpleados_init. by rewrite H.
Qed.

Lemma otros_aplicar_cambios e cambios k v :
  k ∉ CAMPOS → cambios !! k = Some v → otros (aplicar_cambios e cambios) !! k = Some v.
Proof.
  intros Hk Hc. pose proof (getattr_aplicar_cambios e cambios k) as H.
  rewrite Hc in H. unfold getattr in H. unfold CAMPOS in Hk.
  repeat (case_decide; [subst; exfalso; apply Hk; set_solver|]). done.
Qed.

(** X2. A successful update whose changes have a key that is not one of the
    five attributes stores that key in the roster file, and the next start
    of the program raises [TypeError] while loading that file. *)
Theorem modificar_clave_ajena_impide_cargar
    (self : GestorEmpleados) (dir : gmap string archivo) (ced : pyval)
    (cambios : gmap string pyval) (self' : GestorEmpleados) (dir' : gmap string archivo) :
  modificar_empleado self dir ced cambios = Ret (true, self', dir') →
  (∃ k, (k ∉ CAMPOS) ∧ is_Some (cambios !! k)) →
  dir' !! repo_archivo (repo self')
    = Some (Legible (DocEmpleados (Empleado_to_dict <$> empleados self'))) ∧
  ∃ msg, cargar_empleados (repo self') dir' = Raise (TypeError msg) ∧
         GestorEmpleados_init (repo self') dir' = Raise (TypeError msg).
Proof.
  unfold modificar_empleado.
  destruct (buscar (empleados self) ced) as [i|] eqn:Hb; [|done].
  intros [= <- <-] (k & Hk & [v Hv]).
  split; [unfold guardar_empleados, guardar_datos; by rewrite lookup_insert_eq|].
  exists MSG_KWARGS.
  apply atributo_extra_impide_cargar.
  destruct (buscar_Some _ _ _ Hb) as (e & Hi & _).
  exists (aplicar_cambios e cambios). split.
  - cbn. apply list_elem_of_lookup. exists i.
    by rewrite list_lookup_alter_eq, Hi.
  - exists k. split; [done|]. erewrite otros_aplicar_cambios; eauto.
Qed.

(** X3. Every create, update or delete that returns leaves the repository
    as it was and touches no file but the roster file; when it returns
    [True] the roster file holds exactly the roster in memory, and when it
    returns [False] memory and directory are as before. *)
Theorem operaciones_persisten
    (self : GestorEmpleados) (dir : gmap string archivo) (b : bool)
    (self' : GestorEmpleados) (dir' : gmap string archivo) :
  (∃ c, crear_empleado (self, dir) c = Ret (b, self', dir')) ∨
  (∃ ced cambios, modificar_empleado self dir ced cambios = Ret (b, self', dir')) ∨
  (∃ ced, eliminar_empleado self dir ced = Ret (b, self', dir')) →
  repo self' = repo self ∧
  (∀ f, f ≠ repo_archivo (repo self) → dir' !! f = dir !! f) ∧
  (b = true → archivo_al_dia self' dir') ∧
  (b = false → self' = self ∧ dir' = dir).
Proof.
  assert (Hg : ∀ l,
    let s := mkGestor (repo self) l in
    repo s = repo self ∧
    (∀ f, f ≠ repo_archivo (repo self) → guardar_empleados s dir !! f = dir !! f) ∧
    (true = true → archivo_al_dia s (guardar_empleados s dir)) ∧
    (true = false → s = self ∧ guardar_empleados s dir = dir)).
  { intros l s. split; [done|]. split; [|split; [|done]].
    - intros f Hf. unfold guardar_empleados, guardar_datos. by rewrite lookup_insert_ne.
    - intros _. unfold archivo_al_dia, guardar_empleados, guardar_datos.
      by rewrite lookup_insert_eq. }
  intros [[c H]|[(ced & cambios & H)|[ced H]]]; revert H.
  - unfold crear_empleado, validate_empleado.
    destruct (validar c); cbn; [|done].
    destruct (existsb _ _); [by intros [= <- <- <-]|].
    destruct (Empleado_kwargs c); cbn; [|done].
    intros [= <- <- <-]. apply Hg.
  - unfold modificar_empleado. destruct (buscar _ _); intros [= <- <- <-]; [apply Hg|done].
  - unfold eliminar_empleado. destruct (buscar _ _); intros [= <- <- <-]; [apply Hg|done].
Qed.

Lemma py_eq_sym a b : py_eq a b = py_eq b a.
Proof.
  unfold py_eq. destruct (como_numero a), (como_numero b); try done.
  - apply bool_decide_ext. naive_solver.
  - apply bool_decide_ext. naive_solver.
Qed.

Lemma existsb_cedula_false l ced :
  existsb (λ e, py_eq (cedula e) ced) l = false ↔
  ∀ e, e ∈ l → py_eq (cedula e) ced = false.
Proof.
  split.
  - intros H e He. apply not_true_is_false. intros Ht.
    assert (existsb (λ e, py_eq (cedula e) ced) l = true); [|congruence].
    apply existsb_exists. exists e. split; [by apply list_elem_of_In|done].
  - intros H. apply not_true_is_false. intros (e & He & Ht)%existsb_exists.
    apply list_elem_of_In in He. specialize (H e He). congruence.
Qed.

Lemma cedulas_unicas_snoc l e :
  cedulas_unicas l → (∀ e', e' ∈ l → py_eq (cedula e') (cedula e) = false) →
  cedulas_unicas (l ++ [e]).
Proof.
  intros Hu Hn i j e1 e2 Hi Hj Heq.
  apply lookup_snoc_Some in Hi as [[Hi1 Hi]|[-> <-]];
    apply lookup_snoc_Some in Hj as [[Hj1 Hj]|[-> <-]].
  - by eapply Hu.
  - rewrite Hn in Heq; [done|]. by eapply list_elem_of_lookup_2.
  - rewrite py_eq_sym, Hn in Heq; [done|]. by eapply list_elem_of_lookup_2.
  - done.
Qed.

Lemma cedulas_unicas_delete l i : cedulas_unicas l → cedulas_unicas (delete i l).
Proof.
  intros Hu j1 j2 e1 e2. rewrite !list_lookup_delete. intros H1 H2 Heq.
  repeat case_decide.
  - by eapply Hu.
  - specialize (Hu _ _ _ _ H1 H2 Heq). lia.
  - specialize (Hu _ _ _ _ H1 H2 Heq). lia.
  - specialize (Hu _ _ _ _ H1 H2 Heq). lia.
Qed.

(** X4. If no two employees of the roster have equal cedulas, the same
    holds after a create or a delete. *)
Theorem crear_eliminar_conservan_unicidad
    (self : GestorEmpleados) (dir : gmap string archivo) (b : bool)
    (self' : GestorEmpleados) (dir' : gmap string archivo) :
  cedulas_unicas (empleados self) →
  (∃ c, crear_empleado (self, dir) c = Ret (b, self', dir')) ∨
  (∃ ced, eliminar_empleado self dir ced = Ret (b, self', dir')) →
  cedulas_unicas (empleados self').
Proof.
  intros Hu [[c H]|[ced H]]; revert H.
  - unfold crear_empleado, validate_empleado.
    destruct (validar c); cbn; [|done].
    destruct (existsb _ _) eqn:Hex; [by intros [= <- <- <-]|].
    destruct (Empleado_kwargs c) as [e|] eqn:He; cbn; [|done].
    intros [= <- <- <-]. cbn. apply cedulas_unicas_snoc; [done|].
    assert (cedula e = item c "cedula") as ->.
    { unfold Empleado_kwargs in He. case_decide; [|done]. by injection He as <-. }
    by apply existsb_cedula_false.
  - unfold eliminar_empleado. destruct (buscar _ _); intros [= <- <- <-]; [|done].
    by apply cedulas_unicas_delete.
Qed.

Lemma py_eq_refl a : py_eq a a = true.
Proof. unfold py_eq. destruct (como_numero a); by apply bool_decide_eq_true. Qed.

Lemma py_eq_euclid a b c : py_eq a c = true → py_eq b c = true → py_eq a b = true.
Proof.
  unfold py_eq.
  destruct (como_numero a), (como_numero b), (como_numero c); try done;
    rewrite !bool_decide_eq_true; congruence.
Qed.

Lemma buscar_snoc l e ced :
  buscar l ced = None → py_eq (cedula e) ced = true →
  buscar (l ++ [e]) ced = Some (length l).
Proof.
  induction l as [|x l IH]; cbn; intros Hn He.
  - by rewrite He.
  - destruct (py_eq (cedula x) ced); [done|].
    destruct (buscar l ced) eqn:Hb; [done|]. by rewrite IH.
Qed.

Lemma delete_snoc_length {A} (l : list A) (x : A) : delete (length l) (l ++ [x]) = l.
Proof. by rewrite delete_middle, app_nil_r. Qed.

(** X5. A successful delete removes the first employee with the given
    cedula and nothing else: the roster is one shorter and the others keep
    their order; when cedulas are unique, no employee with that cedula is
    left. *)
Theorem eliminar_quita_el_primero
    (self : GestorEmpleados) (dir : gmap string archivo) (ced : pyval)
    (self' : GestorEmpleados) (dir' : gmap string archivo) :
  eliminar_empleado self dir ced = Ret (true, self', dir') →
  ∃ i e,
    empleados self !! i = Some e ∧ py_eq (cedula e) ced = true ∧
    (∀ j e', (j < i)%nat → empleados self !! j = Some e' → py_eq (cedula e') ced = false) ∧
    empleados self' = delete i (empleados self) ∧
    S (length (empleados self')) = length (empleados self) ∧
    (cedulas_unicas (empleados self) → buscar (empleados self') ced = None).
Proof.
  unfold eliminar_empleado.
  destruct (buscar (empleados self) ced) as [i|] eqn:Hb; [|done].
  intros [= <- <-]. destruct (buscar_Some _ _ _ Hb) as (e & Hi & He & Hprev).
  exists i, e. cbn [empleados].
  split; [done|]. split; [done|]. split; [done|]. split; [done|]. split.
  - rewrite length_delete by eauto. apply lookup_lt_Some in Hi. lia.
  - intros Hu. apply buscar_None. intros e' He'.
    apply not_true_is_false. intros Heq.
    apply list_elem_of_lookup in He' as [j Hj]. rewrite list_lookup_delete in Hj.
    pose proof (py_eq_euclid _ _ _ Heq He) as Hee.
    case_decide.
    + specialize (Hu _ _ _ _ Hj Hi Hee). lia.
    + specialize (Hu _ _ _ _ Hj Hi Hee). lia.
Qed.

(** X6. If every employee of the roster passes validation, the same holds
    after a create or a delete. *)
Theorem crear_eliminar_conservan_validez
    (self : GestorEmpleados) (dir : gmap string archivo) (b : bool)
    (self' : GestorEmpleados) (dir' : gmap string archivo) :
  roster_valido (empleados self) →
  (∃ c, crear_empleado (self, dir) c = Ret (b, self', dir')) ∨
  (∃ ced, eliminar_empleado self dir ced = Ret (b, self', dir')) →
  roster_valido (empleados self').
Proof.
  intros Hv [[c H]|[ced H]]; revert H.
  - unfold crear_empleado, validate_empleado.
    destruct (validar c) as [[]|] eqn:Hc; cbn; [|done].
    destruct (existsb _ _); [by intros [= <- <- <-]|].
    destruct (Empleado_kwargs c) as [e|] eqn:He; cbn; [|done].
    intros [= <- <- <-]. cbn. apply Forall_app. split; [done|].
    apply Forall_singleton. by rewrite (Empleado_kwargs_to_dict _ _ He).
  - unfold eliminar_empleado. destruct (buscar _ _); intros [= <- <- <-]; [|done].
    by apply Forall_delete.
Qed.

(** X7. An employee just created is found by the cedula of its candidate,
    at the end of the roster; deleting it by that cedula succeeds, gives
    back the manager as it was before the create, and leaves the roster file
    in step with it and every other file untouched. *)
Theorem crear_y_eliminar_restituye
    (self : GestorEmpleados) (dir : gmap string archivo) (c : gmap string pyval)
    (self1 : GestorEmpleados) (dir1 : gmap string archivo) :
  crear_empleado (self, dir) c = Ret (true, self1, dir1) →
  buscar (empleados self1) (item c "cedula") = Some (length (empleados self)) ∧
  ∃ dir2, eliminar_empleado self1 dir1 (item c "cedula") = Ret (true, self, dir2) ∧
          (∀ f, f ≠ repo_archivo (repo self) → dir2 !! f = dir !! f) ∧
          archivo_al_dia self dir2.
Proof.
  unfold crear_empleado, validate_empleado.
  destruct (validar c); cbn; [|done].
  destruct (existsb _ _) eqn:Hex; [done|].
  destruct (Empleado_kwargs c) as [e|] eqn:He; cbn; [|done].
  intros [= <- <-].
  assert (Hc : cedula e = item c "cedula").
  { unfold Empleado_kwargs in He. case_decide; [|done]. by injection He as <-. }
  assert (Hb : buscar (empleados self ++ [e]) (item c "cedula")
               = Some (length (empleados self))).
  { apply buscar_snoc.
    - apply buscar_None. by apply existsb_cedula_false.
    - rewrite Hc. apply py_eq_refl. }
  split; [exact Hb|].
  unfold eliminar_empleado. cbn [empleados repo]. rewrite Hb.
  rewrite delete_snoc_length. eexists. split; [by destruct self|].
  split.
  - intros f Hf. unfold guardar_empleados, guardar_datos. cbn [repo empleados].
    by rewrite !lookup_insert_ne.
  - unfold archivo_al_dia, guardar_empleados, guardar_datos. cbn [repo empleados].
    by rewrite lookup_insert_eq.
Qed.

Lemma existsb_cedula_true l ced :
  existsb (λ e, py_eq (cedula e) ced) l = true ↔ cedula_registrada l ced.
Proof.
  rewrite existsb_exists. unfold cedula_registrada.
  split; intros (e & He & Hc); exists e; split; try done; by apply list_elem_of_In.
Qed.

(** X9. The outcomes of a create whose candidate satisfies the rules of
    validation: [False] with nothing changed when the cedula is already in
    the roster; otherwise [True] with the employee built from the five
    fields appended and saved when the candidate has no other key, and
    [TypeError] from [Empleado(...)] when it has one. *)
Theorem crear_empleado_casos
    (self : GestorEmpleados) (dir : gmap string archivo) (c : gmap string pyval) :
  reglas c →
  (cedula_registrada (empleados self) (item c "cedula") →
     crear_empleado (self, dir) c = Ret (false, self, dir)) ∧
  (¬ cedula_registrada (empleados self) (item c "cedula") →
     dom c = list_to_set CAMPOS →
     ∃ self', crear_empleado (self, dir) c = Ret (true, self', guardar_empleados self' dir) ∧
              repo self' = repo self ∧
              empleados self'
              = empleados self ++ [Empleado_init (item c "cedula") (item c "nombre")
                                     (item c "sueldo") (item c "departamento")
                                     (item c "cargo")]) ∧
  (¬ cedula_registrada (empleados self) (item c "cedula") →
     dom c ≠ list_to_set CAMPOS →
     (∃ msg, crear_empleado (self, dir) c = Raise (TypeError msg)) ∧
     ∃ k, (k ∉ CAMPOS) ∧ is_Some (c !! k)).
Proof.
  intros Hr. pose proof (validar_Ret_si_reglas c Hr) as Hv.
  assert (Hextra : dom c ≠ list_to_set CAMPOS → ∃ k, (k ∉ CAMPOS) ∧ is_Some (c !! k)).
  { intros Hdom. destruct Hr as [Hc _].
    destruct (decide (set_Forall (λ k, k ∈ CAMPOS) (dom c))) as [Hsub|Hsub].
    - destruct Hdom. apply set_eq. intros k. rewrite elem_of_list_to_set.
      split; [by apply Hsub|]. intros Hk. by apply elem_of_dom, Hc.
    - apply not_set_Forall_Exists in Hsub as (k & Hk & Hn); [|apply _].
      exists k. split; [done|]. by apply elem_of_dom. }
  assert (Hno : ¬ cedula_registrada (empleados self) (item c "cedula") →
                existsb (λ e, py_eq (cedula e) (item c "cedula")) (empleados self) = false).
  { intros Hd. apply not_true_is_false. by rewrite existsb_cedula_true. }
  unfold crear_empleado, validate_empleado, crear_empleado_cuerpo. rewrite Hv.
  unfold Empleado_kwargs.
  split; [|split].
  - intros Hd. apply existsb_cedula_true in Hd. cbn [mbind res_bind]. by rewrite Hd.
  - intros Hd Hdom. cbn [mbind res_bind]. rewrite (Hno Hd), decide_True by done.
    cbn [mbind res_bind]. by eexists.
  - intros Hd Hdom. split; [|by apply Hextra].
    cbn [mbind res_bind]. rewrite (Hno Hd), decide_False by done. by eexists.
Qed.

(** ** The generated payroll *)




Lemma generar_detalles_spec l n i n' :
  generar_detalles n i l = Ret n' →
  ∃ ds, nom_detalles n' = nom_detalles n ++ ds ∧ length ds = length l ∧
        ∀ k e, l !! k = Some e →
          ∃ s, como_numero (sueldo e) = Some s ∧
               ds !! k = Some (DetalleNomina_init (i + Z.of_nat k) e s BONO PRESTAMO).
Proof.
  revert n i. induction l as [|e l IH]; intros n i; cbn.
  - intros [= <-]. exists []. by rewrite app_nil_r.
  - unfold generar_detalle. destruct (como_numero (sueldo e)) as [s|] eqn:Hs; cbn; [|done].
    intros H. destruct (IH _ _ H) as (ds & Hds & Hlen & Hk).
    exists (DetalleNomina_init i e s BONO PRESTAMO :: ds).
    split; [by rewrite Hds; cbn; rewrite <- app_assoc|]. split; [by cbn; rewrite Hlen|].
    intros [|k] e' He'.
    + injection He' as <-. exists s. split; [done|]. cbn. by rewrite Z.add_0_r.
    + destruct (Hk k e' He') as (s' & Hs' & Hd). exists s'. split; [done|].
      etrans; [exact Hd|]. do 2 f_equal. lia.
Qed.





Lemma generar_detalles_Forall2 l n i n' :
  generar_detalles n i l = Ret n' →
  ∃ ds, nom_detalles n' = nom_detalles n ++ ds ∧
        Forall2 (λ e d, ∃ id s, como_numero (sueldo e) = Some s ∧
                                d = DetalleNomina_init id e s BONO PRESTAMO) l ds.
Proof.
  intros H. destruct (generar_detalles_spec _ _ _ _ H) as (ds & Hds & Hlen & Hk).
  exists ds. split; [done|]. apply Forall2_same_length_lookup_2; [done|].
  intros k e d He Hd. destruct (Hk _ _ He) as (s & Hs & Hd').
  exists (i + Z.of_nat k), s. split; [done|]. congruence.
Qed.

(** X13. The report on a payroll just generated: it counts one detail per
    employee, its total net pay is the net total the document stores, and
    its high earners are the names of the employees whose salary is greater
    than 1000, in roster order. *)
Theorem generar_y_consultar
    (self : GestorEmpleados) (aniomes : string) (dir dir' : gmap string archivo) :
  empleados self ≠ [] →
  generar_nomina_mensual self aniomes dir = Ret dir' →
  ∃ doc st,
    dir' !! nombre_archivo_nomina aniomes = Some (Legible (DocNomina doc)) ∧
    consultar_estadisticas_nomina aniomes dir' = Ret (Reporte st) ∧
    total_empleados st = length (empleados self) ∧
    total_neto st = doc_neto doc ∧
    nombres_altos st = nombre <$> filter (λ e, sueldo_alto e = true) (empleados self).
Proof.
  intros Hne. unfold generar_nomina_mensual, consultar_empleados.
  destruct (empleados self) as [|e0 l0] eqn:He; [done|]. rewrite <- He. clear Hne.
  destruct (generar_detalles _ 1 (empleados self)) as [n|x] eqn:Hn; cbn; [|done].
  intros [= <-]. exists (Nomina_to_dict n), (estadisticas (Nomina_to_dict n)).
  destruct (generar_detalles_Forall2 _ _ _ _ Hn) as (ds & Hds & Hf).
  pose proof (totales_ok_generar_detalles _ _ _ _ (totales_ok_init _ _) Hn)
    as (_ & _ & Hnt).
  cbn [Nomina_init nom_detalles app] in Hds.
  split; [apply lookup_insert_eq|]. split.
  { unfold consultar_estadisticas_nomina. by rewrite lookup_insert_eq. }
  rewrite estadisticas_desde_detalles.
  cbn [Nomina_to_dict doc_detalles doc_neto total_empleados total_neto nombres_altos].
  rewrite Hds. rewrite Hds in Hnt. clear Hds Hn He.
  split; [|split].
  - rewrite !length_fmap. symmetry. by eapply Forall2_length.
  - rewrite foldl_suma, !suma_fmap, Qcplus_0_l, Hnt. clear Hnt.
    unfold suma.
    induction Hf as [|e d l ds (id & s & Hs & ->) _ IH]; [done|].
    cbn [foldr]. rewrite IH. reflexivity.
  - clear Hnt. change UMBRAL_ALTO with (dec 1000 1).
    induction Hf as [|e d l ds (id & s & Hs & ->) _ IH]; [done|].
    rewrite !fmap_cons, !filter_cons.
    change (det_sueldo (reconstruir_detalle (DetalleNomina_to_dict
              (DetalleNomina_init id e s BONO PRESTAMO)))) with s.
    assert (Ha : sueldo_alto e = bool_decide (dec 1000 1 < s)%Qc).
    { unfold sueldo_alto. by rewrite Hs. }
    destruct (decide (dec 1000 1 < s)%Qc) as [Hlt|Hlt].
    + rewrite (decide_True (P := sueldo_alto e = true))
        by (by rewrite Ha, bool_decide_eq_true_2).
      rewrite !fmap_cons. f_equal. exact IH.
    + rewrite (decide_False (P := sueldo_alto e = true))
        by (by rewrite Ha, bool_decide_eq_false_2).
      exact IH.
Qed.

(** ** The console dialogues *)

Lemma pedir_spec ok entrada :
  match pedir ok entrada with
  | Leido linea resto =>
      ∃ antes, entrada = antes ++ linea :: resto ∧
               Forall (λ x, ok x = false) antes ∧ ok linea = true
  | FinDeEntrada => Forall (λ x, ok x = false) entrada
  | Fallo _ => False
  end.
Proof.
  induction entrada as [|x entrada IH]; cbn; [done|].
  destruct (ok x) eqn:Hx.
  - exists []. by repeat split.
  - destruct (pedir ok entrada) as [l resto| |e]; [|by constructor|done].
    destruct IH as (antes & -> & Ha & Hl). exists (x :: antes).
    split; [done|]. split; [by constructor|done].
Qed.

Lemma cedula_aceptada_spec c : cedula_aceptada c = true ↔ cedula_valida (VStr c).
Proof.
  rewrite <- cedula_spec. unfold cedula_aceptada. cbn [py_str].
  destruct (str_isdigit c), (bool_decide _); cbn; naive_solver.
Qed.

(** X14. The cedula prompt returns the first line of the input that
    satisfies the cedula rule of validation and skips only lines that do
    not; it ends with the input when no line does, and it never raises. *)
Theorem validar_cedula_primera_valida (entrada : list string) :
  match validar_cedula entrada with
  | Leido cedula resto =>
      ∃ antes, entrada = antes ++ cedula :: resto ∧
               Forall (λ x, ¬ cedula_valida (VStr x)) antes ∧
               cedula_valida (VStr cedula)
  | FinDeEntrada => Forall (λ x, ¬ cedula_valida (VStr x)) entrada
  | Fallo _ => False
  end.
Proof.
  assert (Hn : ∀ l, Forall (λ x, cedula_aceptada x = false) l →
                    Forall (λ x, ¬ cedula_valida (VStr x)) l).
  { intros l. apply List.Forall_impl. intros x Hx. rewrite <- cedula_aceptada_spec.
    congruence. }
  unfold validar_cedula. pose proof (pedir_spec cedula_aceptada entrada) as H.
  destruct (pedir _ _) as [c resto| |e]; [|auto|done].
  destruct H as (antes & -> & Ha & Hc). exists antes.
  split; [done|]. split; [auto|]. by apply cedula_aceptada_spec.
Qed.

Lemma elem_of_quitar_espacios ch s :
  ch ∈ list_ascii_of_string (quitar_espacios s) ↔
  ch ∈ list_ascii_of_string s ∧ codigo ch ≠ 32%N.
Proof.
  induction s as [|c s IH]; cbn.
  - rewrite elem_of_nil. naive_solver.
  - destruct (N.eqb_spec (codigo c) 32) as [Hc|Hc]; cbn;
      rewrite ?elem_of_cons, IH; naive_solver.
Qed.

Lemma str_isalpha_spec s :
  str_isalpha s = true ↔
  s ≠ EmptyString ∧ ∀ ch, ch ∈ list_ascii_of_string s → char_isalpha ch = true.
Proof.
  destruct s as [|a s]; [naive_solver|].
  unfold str_isalpha. rewrite (forallb_chars _ (λ c, char_isalpha c = true)) by done.
  naive_solver.
Qed.

Lemma char_isalpha_ascii ch :
  (codigo ch < 128)%N → char_isalpha ch = true → es_letra ch.
Proof.
  unfold char_isalpha, es_letra. rewrite !orb_true_iff, !entre_spec. lia.
Qed.

Lemma texto_aceptado_ascii (valor : string) :
  solo_ascii valor → texto_aceptado valor = true →
  fullmatch_texto valor = true ∧ texto_valido (VStr valor).
Proof.
  intros Ha Ht. apply str_isalpha_spec in Ht as [Hne Hal].
  assert (H : valor ≠ EmptyString ∧
              ∀ ch, ch ∈ list_ascii_of_string valor → es_letra ch ∨ es_espacio ch).
  { split; [by intros ->|]. intros ch Hch.
    destruct (N.eq_dec (codigo ch) 32%N) as [Hs|Hs].
    - right. unfold es_espacio. lia.
    - left. apply char_isalpha_ascii; [by apply Ha|].
      apply Hal. by apply elem_of_quitar_espacios. }
  split; [by apply fullmatch_texto_spec|]. exists valor. by destruct H.
Qed.

(** X15. On an input of characters of U+0000 .. U+007F the text prompt never
    raises, and the line it returns satisfies the text rule of validation. *)
Theorem validar_texto_ascii (campo : string) (entrada : list string) :
  Forall solo_ascii entrada →
  match validar_texto campo entrada with
  | Leido valor resto =>
      texto_valido (VStr valor) ∧ fullmatch_texto valor = true ∧
      ∃ antes, entrada = antes ++ valor :: resto
  | FinDeEntrada => True
  | Fallo _ => False
  end.
Proof.
  intros Ha. unfold validar_texto.
  pose proof (pedir_spec texto_aceptado entrada) as H.
  destruct (pedir texto_aceptado entrada) as [valor resto| |e]; [|done..].
  destruct H as (antes & -> & Hn & Hv).
  apply Forall_app in Ha as [_ Ha]. apply Forall_cons_1 in Ha as [Ha _].
  destruct (texto_aceptado_ascii valor Ha Hv) as [Hf Ht].
  split; [done|]. split; [done|]. by exists antes.
Qed.

Lemma elem_of_quitar_primer_punto ch s :
  ch ∈ list_ascii_of_string (quitar_primer_punto s) → ch ∈ list_ascii_of_string s.
Proof.
  induction s as [|c s IH]; cbn; [done|].
  destruct (codigo c =? 46)%N; cbn; rewrite ?elem_of_cons; naive_solver.
Qed.

Lemma char_isdigit_ascii ch :
  (codigo ch < 128)%N → char_isdigit ch = true → entre 48 57 ch = true.
Proof.
  unfold char_isdigit. rewrite !orb_true_iff, !entre_spec. lia.
Qed.

Lemma py_float_ascii s :
  solo_ascii s → str_isdigit (quitar_primer_punto s) = true →
  ∃ q, py_float s = Ret q.
Proof.
  intros Ha Hd. unfold py_float.
  destruct (quitar_primer_punto s) as [|c t] eqn:Ht; [done|].
  rewrite <- Ht in *. 
  assert (forallb (entre 48 57) (list_ascii_of_string (quitar_primer_punto s)) = true) as ->;
    [|by eexists].
  apply forallb_forall. intros ch Hch%list_elem_of_In.
  apply char_isdigit_ascii.
  - by apply Ha, elem_of_quitar_primer_punto.
  - apply str_isdigit_spec in Hd as [_ Hd]. by apply char_isdigit_spec, Hd.
Qed.

Lemma py_float_Raise s e : py_float s = Raise e → e = ValueError MSG_FLOAT.
Proof.
  unfold py_float. destruct (quitar_primer_punto s); [by intros [= <-]|].
  destruct (forallb _ _); [done|by intros [= <-]].
Qed.

Lemma solo_ascii_Forall s :
  solo_ascii s ↔ Forall (λ ch, (codigo ch < 128)%N) (list_ascii_of_string s).
Proof. unfold solo_ascii. by rewrite list.Forall_forall. Qed.

Lemma solo_ascii_dec s : Decision (solo_ascii s).
Proof.
  destruct (decide (Forall (λ ch, (codigo ch < 128)%N) (list_ascii_of_string s)));
    [left|right]; by rewrite solo_ascii_Forall.
Qed.

Lemma not_solo_ascii s :
  ¬ solo_ascii s → ∃ ch, ch ∈ list_ascii_of_string s ∧ (128 ≤ codigo ch)%N.
Proof.
  rewrite solo_ascii_Forall. intros H.
  apply not_Forall_Exists in H; [|intros ch; apply _].
  apply list.Exists_exists in H as (ch & Hch & Hc). exists ch. split; [done|by apply N.nlt_ge].
Qed.

Lemma validar_sueldo_caso (entrada : list string) :
  match validar_sueldo entrada with
  | Leido sueldo resto =>
      (0 < sueldo)%Qc ∧
      ∃ antes linea, entrada = antes ++ linea :: resto ∧
                     str_isdigit (quitar_primer_punto linea) = true ∧
                     py_float linea = Ret sueldo
  | FinDeEntrada => True
  | Fallo e => e = ValueError MSG_FLOAT ∧ ¬ Forall solo_ascii entrada
  end.
Proof.
  induction entrada as [|x entrada IH]; cbn; [done|].
  assert (Hrec : match validar_sueldo entrada with
    | Leido sueldo resto =>
        (0 < sueldo)%Qc ∧
        ∃ antes linea, x :: entrada = antes ++ linea :: resto ∧
                       str_isdigit (quitar_primer_punto linea) = true ∧
                       py_float linea = Ret sueldo
    | FinDeEntrada => True
    | Fallo e => e = ValueError MSG_FLOAT ∧ ¬ Forall solo_ascii (x :: entrada)
    end).
  { destruct (validar_sueldo entrada) as [q resto| |e]; [|done|].
    - destruct IH as (Hq & antes & linea & -> & Hd & Hl).
      split; [done|]. by exists (x :: antes), linea.
    - destruct IH as [-> Hn]. split; [done|]. intros H. apply Hn.
      by apply Forall_cons_1 in H as [_ H]. }
  destruct (str_isdigit (quitar_primer_punto x)) eqn:Hd; [|exact Hrec].
  destruct (py_float x) as [q|e] eqn:Hf.
  - case_bool_decide as Hq; [|exact Hrec].
    split; [done|]. by exists [], x.
  - split; [by eapply py_float_Raise|]. intros H. apply Forall_cons_1 in H as [Hx _].
    destruct (py_float_ascii x Hx Hd) as [q Hq]. congruence.
Qed.

(** X16. The salary prompt returns a number greater than 0, the value of a
    line of the input, which the salary rule of validation accepts; it
    raises only [ValueError], from [float], and only when some line has a
    character outside U+0000 .. U+007F. *)
Theorem validar_sueldo_positivo (entrada : list string) :
  match validar_sueldo entrada with
  | Leido sueldo resto =>
      (0 < sueldo)%Qc ∧ sueldo_valido (VFloat sueldo) ∧
      ∃ antes linea, entrada = antes ++ linea :: resto ∧ py_float linea = Ret sueldo
  | FinDeEntrada => True
  | Fallo e =>
      (∃ msg, e = ValueError msg) ∧
      ∃ linea ch, linea ∈ entrada ∧ ch ∈ list_ascii_of_string linea ∧ (128 ≤ codigo ch)%N
  end.
Proof.
  pose proof (validar_sueldo_caso entrada) as H.
  destruct (validar_sueldo entrada) as [q resto| |e]; [|done|].
  - destruct H as (Hq & antes & linea & -> & _ & Hl).
    split; [done|]. split; [by exists q|]. by exists antes, linea.
  - destruct H as [-> Hn]. split; [by eexists|].
    apply not_Forall_Exists in Hn; [|intros s; apply solo_ascii_dec].
    apply list.Exists_exists in Hn as (linea & Hin & Hl).
    exists linea. apply not_solo_ascii in Hl as (ch & Hch & Hc). by exists ch.
Qed.

Lemma pedir_resto (P : string → Prop) ok entrada linea resto :
  pedir ok entrada = Leido linea resto →
  Forall P entrada → ok linea = true ∧ P linea ∧ Forall P resto.
Proof.
  intros H Hp. pose proof (pedir_spec ok entrada) as Hs. rewrite H in Hs.
  destruct Hs as (antes & -> & _ & Hok). apply Forall_app in Hp as [_ Hp].
  apply Forall_cons_1 in Hp as [Hl Hr]. done.
Qed.

Lemma validar_sueldo_resto (P : string → Prop) entrada sueldo resto :
  validar_sueldo entrada = Leido sueldo resto →
  Forall P entrada → (0 < sueldo)%Qc ∧ Forall P resto.
Proof.
  intros H Hp. pose proof (validar_sueldo_caso entrada) as Hs. rewrite H in Hs.
  destruct Hs as (Hq & antes & linea & -> & _). split; [done|].
  apply Forall_app in Hp as [_ Hp]. by apply Forall_cons_1 in Hp as [_ Hr].
Qed.

Lemma candidato_del_menu_valido cedula nombre sueldo departamento cargo :
  cedula_aceptada cedula = true → (0 < sueldo)%Qc →
  texto_valido (VStr nombre) → texto_valido (VStr departamento) →
  texto_valido (VStr cargo) →
  let c : gmap string pyval :=
    {[ "cedula" := VStr cedula; "nombre" := VStr nombre; "sueldo" := VFloat sueldo;
       "departamento" := VStr departamento; "cargo" := VStr cargo ]} in
  validar c = Ret () ∧ dom c = list_to_set CAMPOS.
Proof.
  intros Hc Hs Hn Hd Hg c. split.
  - apply validar_Ret_si_reglas. unfold reglas.
    split; [by apply campos_spec|].
    split; [by exists sueldo|].
    split; [by apply cedula_aceptada_spec|]. done.
  - subst c. unfold CAMPOS. rewrite !dom_insert_L, dom_singleton_L. set_solver.
Qed.

(** X17. On an input of characters of U+0000 .. U+007F the create dialogue
    never raises: it returns [False] with nothing changed, or [True] with one
    new employee at the end of the roster, valid and with no other
    attribute, or the input ends. *)
Theorem flujo_crear_ascii_no_falla
    (st : GestorEmpleados * gmap string archivo) (entrada : list string) :
  Forall solo_ascii entrada →
  match flujo_crear st entrada with
  | Leido (b, self', dir') resto =>
      b = false ∧ self' = st.1 ∧ dir' = st.2 ∨
      b = true ∧ ∃ e, empleados self' = empleados st.1 ++ [e] ∧
                      validar (Empleado_to_dict e) = Ret () ∧ otros e = ∅
  | FinDeEntrada => True
  | Fallo _ => False
  end.
Proof.
  intros H0. unfold flujo_crear, ligar, validar_cedula, validar_texto.
  destruct (pedir cedula_aceptada entrada) as [cedula e1| |x] eqn:E1;
    [|done|by pose proof (pedir_spec cedula_aceptada entrada) as H; rewrite E1 in H].
  destruct (pedir_resto solo_ascii _ _ _ _ E1 H0) as (Hc & _ & H1).
  destruct (pedir texto_aceptado e1) as [nombre e2| |x] eqn:E2;
    [|done|by pose proof (pedir_spec texto_aceptado e1) as H; rewrite E2 in H].
  destruct (pedir_resto solo_ascii _ _ _ _ E2 H1) as (Hn & Hna & H2).
  pose proof (validar_sueldo_caso e2) as Hv.
  destruct (validar_sueldo e2) as [sueldo e3| |x] eqn:E3;
    [|done|by destruct Hv as [_ Hv]].
  destruct (validar_sueldo_resto solo_ascii _ _ _ E3 H2) as (Hs & H3). clear Hv.
  destruct (pedir texto_aceptado e3) as [departamento e4| |x] eqn:E4;
    [|done|by pose proof (pedir_spec texto_aceptado e3) as H; rewrite E4 in H].
  destruct (pedir_resto solo_ascii _ _ _ _ E4 H3) as (Hd & Hda & H4).
  destruct (pedir texto_aceptado e4) as [cargo e5| |x] eqn:E5;
    [|done|by pose proof (pedir_spec texto_aceptado e4) as H; rewrite E5 in H].
  destruct (pedir_resto solo_ascii _ _ _ _ E5 H4) as (Hg & Hga & H5).
  destruct (candidato_del_menu_valido cedula nombre sueldo departamento cargo Hc Hs
              (proj2 (texto_aceptado_ascii _ Hna Hn))
              (proj2 (texto_aceptado_ascii _ Hda Hd))
              (proj2 (texto_aceptado_ascii _ Hga Hg))) as [Hval Hdom].
  set (c := ({[ "cedula" := VStr cedula; "nombre" := VStr nombre;
                "sueldo" := VFloat sueldo; "departamento" := VStr departamento;
                "cargo" := VStr cargo ]} : gmap string pyval)) in *.
  unfold de_res, crear_empleado, validate_empleado. rewrite Hval. cbn.
  destruct st as [self dir]. cbn.
  destruct (existsb _ _); [by left|].
  destruct (Empleado_kwargs c) as [e|x] eqn:Ee; cbn.
  - right. split; [done|]. exists e. split; [done|].
    split; [by rewrite (Empleado_kwargs_to_dict _ _ Ee)|].
    unfold Empleado_kwargs in Ee. case_decide; [|done]. by injection Ee as <-.
  - unfold Empleado_kwargs in Ee. by rewrite decide_True in Ee.
Qed.

(** X18. A name that the text prompt accepts and the pattern of validation
    rejects makes the create dialogue raise [ValueError]: nothing handles the
    exception of the validation decorator. *)
Theorem flujo_crear_nombre_no_ascii
    (st : GestorEmpleados * gmap string archivo)
    (cedula nombre sueldo_input departamento cargo : string) (resto : list string) :
  cedula_aceptada cedula = true →
  texto_aceptado nombre = true → fullmatch_texto nombre = false →
  str_isdigit (quitar_primer_punto sueldo_input) = true →
  (∃ q, py_float sueldo_input = Ret q ∧ (0 < q)%Qc) →
  texto_aceptado departamento = true → texto_aceptado cargo = true →
  flujo_crear st (cedula :: nombre :: sueldo_input :: departamento :: cargo :: resto)
  = Fallo (ValueError MSG_NOMBRE).
Proof.
  intros Hc Hn Hf Hd (q & Hq & Hpos) Hp Hg.
  unfold flujo_crear, ligar, validar_cedula, validar_texto.
  cbn [pedir]. rewrite Hc. cbn [pedir]. rewrite Hn.
  cbn [validar_sueldo]. rewrite Hd, Hq, bool_decide_eq_true_2 by done.
  cbn [pedir]. rewrite Hp. cbn [pedir]. rewrite Hg.
  unfold de_res, crear_empleado, validate_empleado.
  set (c := ({[ "cedula" := VStr cedula; "nombre" := VStr nombre;
                "sueldo" := VFloat q; "departamento" := VStr departamento;
                "cargo" := VStr cargo ]} : gmap string pyval)).
  assert (validar c = Raise (ValueError MSG_NOMBRE)) as ->; [|done].
  assert (Hi : item c "nombre" = VStr nombre) by reflexivity.
  assert (Hno : ¬ texto_valido (item c "nombre")).
  { rewrite Hi. intros (s & Heq & Hs). injection Heq as <-.
    apply fullmatch_texto_spec in Hs. congruence. }
  assert (Hcam : tiene_campos c) by (by apply campos_spec).
  assert (Hsu : sueldo_valido (item c "sueldo")) by (by exists q).
  assert (Hce : cedula_valida (item c "cedula")) by (by apply cedula_aceptada_spec).
  assert (Htx : es_texto (item c "nombre")) by (by exists nombre).
  clearbody c.
  destruct (validar_caso c); unfold reglas in *; try done; tauto.
Qed.

Lemma cambio_texto_spec P campo cambios entrada cambios' resto :
  campo = "nombre" ∨ campo = "departamento" ∨ campo = "cargo" →
  Forall P entrada → cambios_del_menu P cambios →
  cambio_texto campo cambios entrada = Leido cambios' resto →
  cambios_del_menu P cambios' ∧ Forall P resto.
Proof.
  intros Hc Hp Hi. unfold cambio_texto, ligar, input.
  destruct entrada as [|valor entrada]; [done|]. intros [= <- <-].
  apply Forall_cons_1 in Hp as [Hv Hp]. split; [|done].
  case_bool_decide; [done|]. destruct (texto_aceptado valor) eqn:Ht; [|done].
  intros k v. rewrite lookup_insert. case_decide as Hk.
  - intros [= <-]. subst k. right. split; [done|]. by exists valor.
  - apply Hi.
Qed.

Lemma cambio_sueldo_spec P cambios entrada cambios' resto :
  Forall P entrada → cambios_del_menu P cambios →
  cambio_sueldo cambios entrada = Leido cambios' resto →
  cambios_del_menu P cambios' ∧ Forall P resto.
Proof.
  intros Hp Hi. unfold cambio_sueldo, ligar, input.
  destruct entrada as [|linea entrada]; [done|].
  apply Forall_cons_1 in Hp as [_ Hp].
  case_bool_decide; [by intros [= <- <-]|].
  destruct (str_isdigit _); [|by intros [= <- <-]].
  destruct (py_float linea) as [q|x]; [|done]. intros [= <- <-].
  split; [|done]. case_bool_decide as Hq; [|done].
  intros k v. rewrite lookup_insert. case_decide as Hk.
  - intros [= <-]. subst k. left. split; [done|]. by exists q.
  - apply Hi.
Qed.

Lemma cambios_del_menu_vacio P : cambios_del_menu P ∅.
Proof. intros k v. by rewrite lookup_empty. Qed.

Lemma leer_cambios_spec P entrada cedula cambios resto :
  Forall P entrada →
  leer_cambios entrada = Leido (cedula, cambios) resto →
  cedula_aceptada cedula = true ∧ cambios_del_menu P cambios.
Proof.
  intros H0. unfold leer_cambios, ligar at 1, validar_cedula.
  destruct (pedir cedula_aceptada entrada) as [c e1| |x] eqn:E0; [|done..].
  destruct (pedir_resto P _ _ _ _ E0 H0) as (Hc & _ & Hp1).
  unfold ligar at 1.
  destruct (cambio_texto "nombre" ∅ e1) as [c1 e2| |x] eqn:E1; [|done..].
  destruct (cambio_texto_spec P "nombre" _ _ _ _ ltac:(auto) Hp1
              (cambios_del_menu_vacio P) E1) as [H1 Hp2].
  unfold ligar at 1.
  destruct (cambio_sueldo c1 e2) as [c2 e3| |x] eqn:E2; [|done..].
  destruct (cambio_sueldo_spec P _ _ _ _ Hp2 H1 E2) as [H2 Hp3].
  unfold ligar at 1.
  destruct (cambio_texto "departamento" c2 e3) as [c3 e4| |x] eqn:E3; [|done..].
  destruct (cambio_texto_spec P "departamento" _ _ _ _ ltac:(auto) Hp3 H2 E3) as [H3 Hp4].
  unfold ligar at 1.
  destruct (cambio_texto "cargo" c3 e4) as [c4 e5| |x] eqn:E4; [|done..].
  destruct (cambio_texto_spec P "cargo" _ _ _ _ ltac:(auto) Hp4 H3 E4) as [H4 _].
  by intros [= <- <- <-].
Qed.

Lemma cambios_del_menu_sin_cedula P cambios :
  cambios_del_menu P cambios →
  cambios !! "cedula" = None ∧ ∀ k, is_Some (cambios !! k) → k ∈ CAMPOS.
Proof.
  intros H. split.
  - destruct (cambios !! "cedula") as [v|] eqn:E; [|done].
    destruct (H _ _ E) as [[? _]|[[?|[?|?]] _]]; done.
  - intros k [v Hv]. unfold CAMPOS.
    destruct (H _ _ Hv) as [[-> _]|[[-> | [-> | ->]] _]]; set_solver.
Qed.

Lemma otros_setattr_campo e k v : k ∈ CAMPOS → otros (setattr e k v) = otros e.
Proof.
  intros Hk. unfold setattr. repeat (case_decide; [done|]).
  exfalso. unfold CAMPOS in Hk. set_solver.
Qed.

Lemma otros_aplicar_cambios_campos e cambios :
  (∀ k, is_Some (cambios !! k) → k ∈ CAMPOS) →
  otros (aplicar_cambios e cambios) = otros e.
Proof.
  unfold aplicar_cambios.
  apply (map_fold_weak_ind (λ r m,
    (∀ k, is_Some (m !! k) → k ∈ CAMPOS) → otros r = otros e)); [done|].
  intros k v m r Hk IH Hm. rewrite otros_setattr_campo.
  - apply IH. intros k' Hk'. apply Hm. rewrite lookup_insert_ne; [done|].
    intros ->. rewrite Hk in Hk'. by destruct Hk'.
  - apply Hm. by rewrite lookup_insert_eq.
Qed.

Lemma campos_aplicar_cambios e cambios :
  let e' := aplicar_cambios e cambios in
  cedula e' = default (cedula e) (cambios !! "cedula") ∧
  nombre e' = default (nombre e) (cambios !! "nombre") ∧
  sueldo e' = default (sueldo e) (cambios !! "sueldo") ∧
  departamento e' = default (departamento e) (cambios !! "departamento") ∧
  cargo e' = default (cargo e) (cambios !! "cargo").
Proof.
  intros e'. subst e'.
  pose proof (getattr_aplicar_cambios e cambios "cedula") as H1.
  pose proof (getattr_aplicar_cambios e cambios "nombre") as H2.
  pose proof (getattr_aplicar_cambios e cambios "sueldo") as H3.
  pose proof (getattr_aplicar_cambios e cambios "departamento") as H4.
  pose proof (getattr_aplicar_cambios e cambios "cargo") as H5.
  unfold getattr in *. cbn in H1, H2, H3, H4, H5.
  destruct (cambios !! "cedula"), (cambios !! "nombre"), (cambios !! "sueldo"),
    (cambios !! "departamento"), (cambios !! "cargo"); cbn; naive_solver.
Qed.

Lemma item_Empleado_to_dict e :
  item (Empleado_to_dict e) "cedula" = cedula e ∧
  item (Empleado_to_dict e) "nombre" = nombre e ∧
  item (Empleado_to_dict e) "sueldo" = sueldo e ∧
  item (Empleado_to_dict e) "departamento" = departamento e ∧
  item (Empleado_to_dict e) "cargo" = cargo e.
Proof.
  unfold item, Empleado_to_dict.
  repeat split; by rewrite ?lookup_insert_eq, ?lookup_insert_ne, ?lookup_insert_eq by done.
Qed.

Lemma tiene_campos_Empleado_to_dict e : tiene_campos (Empleado_to_dict e).
Proof.
  intros k Hk. apply elem_of_dom. rewrite dom_Empleado_to_dict.
  apply elem_of_union_l. by apply elem_of_list_to_set.
Qed.

Lemma reglas_Empleado_to_dict e :
  reglas (Empleado_to_dict e) ↔
  sueldo_valido (sueldo e) ∧ cedula_valida (cedula e) ∧ texto_valido (nombre e) ∧
  texto_valido (departamento e) ∧ texto_valido (cargo e).
Proof.
  unfold reglas. destruct (item_Empleado_to_dict e) as (-> & -> & -> & -> & ->).
  pose proof (tiene_campos_Empleado_to_dict e). tauto.
Qed.

Lemma valido_tras_cambios_del_menu e cambios :
  cambios_del_menu solo_ascii cambios →
  validar (Empleado_to_dict e) = Ret () →
  validar (Empleado_to_dict (aplicar_cambios e cambios)) = Ret ().
Proof.
  intros Hc Hv. apply validar_Ret_si_reglas, reglas_Empleado_to_dict.
  apply reglas_si_validar_Ret, reglas_Empleado_to_dict in Hv
    as (Hs & Hce & Hn & Hd & Hg).
  destruct (campos_aplicar_cambios e cambios) as (-> & -> & -> & -> & ->).
  destruct (cambios_del_menu_sin_cedula _ _ Hc) as [-> _]. cbn [default].
  assert (Ht : ∀ k old, k = "nombre" ∨ k = "departamento" ∨ k = "cargo" →
                 texto_valido old → texto_valido (default old (cambios !! k))).
  { intros k old Hk Hold. destruct (cambios !! k) as [v|] eqn:E; [|done]. cbn.
    destruct (Hc _ _ E) as [[-> _]|[_ (s & -> & Hs' & Ha)]].
    - naive_solver.
    - by apply texto_aceptado_ascii. }
  split; [|split; [done|]].
  - destruct (cambios !! "sueldo") as [v|] eqn:E; [|done]. cbn.
    destruct (Hc _ _ E) as [[_ (q & -> & Hq)]|[[?|[?|?]] _]]; [|done..].
    by exists q.
  - split; [|split]; apply Ht; auto.
Qed.

(** X19. The update dialogue never changes a cedula and never adds an
    attribute; on an input of characters of U+0000 .. U+007F it keeps every
    employee valid. *)
Theorem flujo_modificar_conserva
    (self : GestorEmpleados) (dir : gmap string archivo) (entrada : list string)
    (b : bool) (self' : GestorEmpleados) (dir' : gmap string archivo)
    (resto : list string) :
  flujo_modificar self dir entrada = Leido (b, self', dir') resto →
  cedula <$> empleados self' = cedula <$> empleados self ∧
  otros <$> empleados self' = otros <$> empleados self ∧
  (Forall solo_ascii entrada → roster_valido (empleados self) →
     roster_valido (empleados self')).
Proof.
  unfold flujo_modificar, ligar.
  destruct (leer_cambios entrada) as [[ced cambios] e1| |x] eqn:E; [|done..].
  case_bool_decide as Hv; [by intros [= <- <- <-]|].
  unfold de_res, modificar_empleado.
  destruct (buscar (empleados self) (VStr ced)) as [i|] eqn:Hb;
    [|by intros [= <- <- <-]].
  intros [= <- <- <-]. cbn [empleados].
  destruct (leer_cambios_spec (λ _, True) _ _ _ _ ltac:(by apply Forall_true) E)
    as [_ Hc].
  destruct (cambios_del_menu_sin_cedula _ _ Hc) as [Hced Hk].
  split; [|split].
  - apply list_eq. intros j. rewrite !list_lookup_fmap, list_lookup_alter.
    case_decide; [subst j|done]. destruct (empleados self !! i) as [e|]; [|done].
    cbn. f_equal. destruct (campos_aplicar_cambios e cambios) as (-> & _).
    by rewrite Hced.
  - apply list_eq. intros j. rewrite !list_lookup_fmap, list_lookup_alter.
    case_decide; [subst j|done]. destruct (empleados self !! i) as [e|]; [|done].
    cbn. f_equal. by apply otros_aplicar_cambios_campos.
  - intros Ha Hr. destruct (leer_cambios_spec solo_ascii _ _ _ _ Ha E) as [_ Hc'].
    unfold roster_valido in *. rewrite Forall_lookup in Hr |- *.
    intros j e'. rewrite list_lookup_alter. case_decide; [subst j|by apply Hr].
    destruct (empleados self !! i) as [e|] eqn:Hi; [|done]. intros [= <-].
    apply valido_tras_cambios_del_menu; [done|]. by eapply Hr.
Qed.

Lemma cambio_sueldo_ascii cambios entrada e :
  Forall solo_ascii entrada → cambio_sueldo cambios entrada ≠ Fallo e.
Proof.
  intros Ha. unfold cambio_sueldo, ligar, input.
  destruct entrada as [|linea entrada]; [done|].
  apply Forall_cons_1 in Ha as [Hl _].
  case_bool_decide; [done|].
  destruct (str_isdigit _) eqn:Hd; [|done].
  destruct (py_float_ascii linea Hl Hd) as [q ->]. done.
Qed.

(** X20. On an input of characters of U+0000 .. U+007F the update dialogue
    never raises. *)
Theorem flujo_modificar_ascii_no_falla
    (self : GestorEmpleados) (dir : gmap string archivo) (entrada : list string) :
  Forall solo_ascii entrada →
  match flujo_modificar self dir entrada with
  | Leido _ _ | FinDeEntrada => True
  | Fallo _ => False
  end.
Proof.
  intros H0. unfold flujo_modificar, leer_cambios, ligar at 1 2, validar_cedula.
  destruct (pedir cedula_aceptada entrada) as [c e1| |x] eqn:E0;
    [|done|by pose proof (pedir_spec cedula_aceptada entrada) as H; rewrite E0 in H].
  destruct (pedir_resto solo_ascii _ _ _ _ E0 H0) as (_ & _ & Hp1).
  unfold ligar at 1.
  destruct (cambio_texto "nombre" ∅ e1) as [c1 e2| |x] eqn:E1;
    [|done|by destruct e1].
  destruct (cambio_texto_spec solo_ascii "nombre" _ _ _ _ ltac:(auto) Hp1
              (cambios_del_menu_vacio _) E1) as [H1 Hp2].
  unfold ligar at 1.
  destruct (cambio_sueldo c1 e2) as [c2 e3| |x] eqn:E2;
    [|done|by apply cambio_sueldo_ascii in E2].
  destruct (cambio_sueldo_spec solo_ascii _ _ _ _ Hp2 H1 E2) as [H2 Hp3].
  unfold ligar at 1.
  destruct (cambio_texto "departamento" c2 e3) as [c3 e4| |x] eqn:E3;
    [|done|by destruct e3].
  unfold ligar at 1.
  destruct (cambio_texto "cargo" c3 e4) as [c4 e5| |x] eqn:E4;
    [|done|by destruct e4].
  case_bool_decide; [done|]. unfold de_res, modificar_empleado.
  by destruct (buscar _ _).
Qed.

(** X21. The delete dialogue never raises, and deletes only after the
    confirmation [s] or [S]: otherwise roster and directory are as before. *)
Theorem flujo_eliminar_solo_confirmado
    (self : GestorEmpleados) (dir : gmap string archivo) (entrada : list string) :
  match flujo_eliminar self dir entrada with
  | Leido (b, self', dir') resto =>
      b = false ∧ self' = self ∧ dir' = dir ∨
      b = true ∧ ∃ antes cedula confirm,
        entrada = antes ++ cedula :: confirm :: resto ∧
        (confirm = "s" ∨ confirm = "S") ∧
        eliminar_empleado self dir (VStr cedula) = Ret (true, self', dir')
  | FinDeEntrada => True
  | Fallo _ => False
  end.
Proof.
  unfold flujo_eliminar, ligar, validar_cedula, input.
  pose proof (pedir_spec cedula_aceptada entrada) as Hp.
  destruct (pedir cedula_aceptada entrada) as [c e1| |x]; [|done..].
  destruct Hp as (antes & -> & _ & _).
  destruct e1 as [|confirm e1]; [done|].
  case_bool_decide as Hc; [|by left].
  unfold de_res. destruct (eliminar_empleado self dir (VStr c)) as [[[b s'] d']|x] eqn:E.
  - destruct b.
    + right. split; [done|]. by exists antes, c, confirm.
    + left. unfold eliminar_empleado in E. destruct (buscar _ _); [done|].
      by injection E as <- <-.
  - unfold eliminar_empleado in E. by destruct (buscar _ _).
Qed.

(** ** The dialogues and the roster file *)

Lemma init_tras_guardar (s : GestorEmpleados) (dir : gmap string archivo) :
  Forall sin_extras (empleados s) →
  GestorEmpleados_init (repo s) (guardar_empleados s dir) = Ret s.
Proof.
  intros H. unfold GestorEmpleados_init, cargar_empleados.
  rewrite cargar_tras_guardar_datos. cbn.
  rewrite mapM_res_to_dict_kwargs by done. cbn. by destruct s.
Qed.

Lemma crear_empleado_sin_extras st c b self' dir' :
  Forall sin_extras (empleados st.1) →
  crear_empleado st c = Ret (b, self', dir') →
  Forall sin_extras (empleados self') ∧ (b = true → dir' = guardar_empleados self' st.2).
Proof.
  destruct st as [self dir]. intros Hs. unfold crear_empleado, validate_empleado.
  destruct (validar c); cbn; [|done].
  destruct (existsb _ _); [by intros [= <- <- <-]|].
  destruct (Empleado_kwargs c) as [e|] eqn:He; cbn; [|done].
  intros [= <- <- <-]. split; [|done]. cbn. apply Forall_app. split; [done|].
  apply Forall_singleton. unfold Empleado_kwargs in He.
  case_decide; [|done]. by injection He as <-.
Qed.

Lemma flujo_crear_Leido st entrada r resto :
  flujo_crear st entrada = Leido r resto →
  ∃ c, crear_empleado st c = Ret r.
Proof.
  unfold flujo_crear, ligar.
  destruct (validar_cedula entrada) as [cedula e1| |x]; [|done..].
  destruct (validar_texto "Nombre" e1) as [nombre e2| |x]; [|done..].
  destruct (validar_sueldo e2) as [sueldo e3| |x]; [|done..].
  destruct (validar_texto "Departamento" e3) as [departamento e4| |x]; [|done..].
  destruct (validar_texto "Cargo" e4) as [cargo e5| |x]; [|done..].
  unfold de_res. intros H.
  match type of H with context [crear_empleado st ?c] => exists c end.
  destruct (crear_empleado st _); [|done]. by injection H as <- _.
Qed.

Lemma flujo_modificar_sin_extras self dir entrada b self' dir' resto :
  Forall sin_extras (empleados self) →
  flujo_modificar self dir entrada = Leido (b, self', dir') resto →
  Forall sin_extras (empleados self') ∧ (b = true → dir' = guardar_empleados self' dir).
Proof.
  intros Hs. unfold flujo_modificar, ligar.
  destruct (leer_cambios entrada) as [[ced cambios] e1| |x] eqn:E; [|done..].
  case_bool_decide as Hv; [by intros [= <- <- <-]|].
  unfold de_res, modificar_empleado.
  destruct (buscar (empleados self) (VStr ced)) as [i|] eqn:Hb;
    [|by intros [= <- <- <-]].
  intros [= <- <- <-]. split; [|done]. cbn [empleados].
  destruct (leer_cambios_spec (λ _, True) entrada ced cambios e1) as [_ Hc];
    [by apply Forall_true|done|].
  destruct (cambios_del_menu_sin_cedula _ _ Hc) as [_ Hk].
  rewrite Forall_lookup in Hs. apply Forall_lookup. intros j e'.
  rewrite list_lookup_alter. case_decide; [subst j|by apply Hs].
  destruct (empleados self !! i) as [e|] eqn:Hi; [|done]. intros [= <-].
  unfold sin_extras. rewrite otros_aplicar_cambios_campos by done. by eapply Hs.
Qed.

Lemma flujo_eliminar_sin_extras self dir entrada b self' dir' resto :
  Forall sin_extras (empleados self) →
  flujo_eliminar self dir entrada = Leido (b, self', dir') resto →
  Forall sin_extras (empleados self') ∧ (b = true → dir' = guardar_empleados self' dir).
Proof.
  intros Hs. unfold flujo_eliminar, ligar, input.
  destruct (validar_cedula entrada) as [c e1| |x]; [|done..].
  destruct e1 as [|confirm e1]; [done|].
  case_bool_decide; [|by intros [= <- <- <-]].
  unfold de_res, eliminar_empleado.
  destruct (buscar _ _); intros [= <- <- <-]; [|done].
  split; [|done]. by apply Forall_delete.
Qed.

(** X22. Through the three dialogues no employee ever gets an attribute
    beyond the five of [__init__], and the roster file a dialogue has
    written loads back to the manager it left: what was created, updated or
    deleted through the menu is there at the next start. *)
Theorem dialogos_conservan_cargable
    (self : GestorEmpleados) (dir : gmap string archivo) (entrada : list string)
    (b : bool) (self' : GestorEmpleados) (dir' : gmap string archivo)
    (resto : list string) :
  Forall sin_extras (empleados self) →
  flujo_crear (self, dir) entrada = Leido (b, self', dir') resto ∨
  flujo_modificar self dir entrada = Leido (b, self', dir') resto ∨
  flujo_eliminar self dir entrada = Leido (b, self', dir') resto →
  Forall sin_extras (empleados self') ∧
  (b = true → GestorEmpleados_init (repo self') dir' = Ret self').
Proof.
  intros Hs H.
  assert (Forall sin_extras (empleados self') ∧
          (b = true → dir' = guardar_empleados self' dir)) as [Hs' Hd].
  { destruct H as [H|[H|H]].
    - apply flujo_crear_Leido in H as [c H].
      by apply (crear_empleado_sin_extras (self, dir) c).
    - by eapply flujo_modificar_sin_extras.
    - by eapply flujo_eliminar_sin_extras. }
  split; [done|]. intros Hb. rewrite (Hd Hb). by apply init_tras_guardar.
Qed.

(** ** The properties above on the sample data *)

Lemma sin_extras_ana : Forall sin_extras (empleados gestor_ana).
Proof. by repeat constructor. Qed.

Lemma cedulas_unicas_ana : cedulas_unicas (empleados gestor_ana).
Proof. intros [|i] [|j] e1 e2; cbn; done. Qed.

Lemma roster_valido_ana : roster_valido (empleados gestor_ana).
Proof. constructor; [vm_compute; reflexivity|constructor]. Qed.

Lemma crear_ana :
  crear_empleado (gestor_vacio, ∅) candidato_ana
  = Ret (true, gestor_ana, guardar_empleados gestor_ana ∅).
Proof. vm_compute. reflexivity. Qed.

Lemma eliminar_ana :
  eliminar_empleado gestor_ana ∅ (VStr "0123456789")
  = Ret (true, gestor_vacio, guardar_empleados gestor_vacio ∅).
Proof. reflexivity. Qed.

Lemma guardar_cargar_ida_y_vuelta_witness :
  cargar_empleados (repo gestor_ana) (guardar_empleados gestor_ana ∅)
    = Ret (empleados gestor_ana) ∧
  GestorEmpleados_init (repo gestor_ana) (guardar_empleados gestor_ana ∅) = Ret gestor_ana.
Proof. exact (guardar_cargar_ida_y_vuelta gestor_ana ∅ sin_extras_ana). Defined.

Lemma modificar_clave_ajena_impide_cargar_witness :
  guardar_empleados gestor_salario ∅ !! repo_archivo (repo gestor_salario)
    = Some (Legible (DocEmpleados (Empleado_to_dict <$> empleados gestor_salario))) ∧
  ∃ msg, cargar_empleados (repo gestor_salario) (guardar_empleados gestor_salario ∅)
           = Raise (TypeError msg) ∧
         GestorEmpleados_init (repo gestor_salario) (guardar_empleados gestor_salario ∅)
           = Raise (TypeError msg).
Proof.
  apply (modificar_clave_ajena_impide_cargar gestor_ana ∅ (VStr "0123456789")
           cambios_clave_ajena gestor_salario (guardar_empleados gestor_salario ∅)).
  - reflexivity.
  - exists "salario". split; [|by eexists].
    unfold CAMPOS. intros H. repeat (apply elem_of_cons in H as [H|H]; [done|]).
    by apply elem_of_nil in H.
Defined.

Lemma operaciones_persisten_witness :
  repo gestor_vacio = repo gestor_ana ∧
  (∀ f, f ≠ repo_archivo (repo gestor_ana) →
        guardar_empleados gestor_vacio ∅ !! f = (∅ : gmap string archivo) !! f) ∧
  (true = true → archivo_al_dia gestor_vacio (guardar_empleados gestor_vacio ∅)) ∧
  (true = false → gestor_vacio = gestor_ana ∧ guardar_empleados gestor_vacio ∅ = ∅).
Proof.
  apply (operaciones_persisten gestor_ana ∅ true gestor_vacio
           (guardar_empleados gestor_vacio ∅)).
  right. right. exists (VStr "0123456789"). exact eliminar_ana.
Defined.

Lemma crear_eliminar_conservan_unicidad_witness : cedulas_unicas (empleados gestor_vacio).
Proof.
  apply (crear_eliminar_conservan_unicidad gestor_ana ∅ true gestor_vacio
           (guardar_empleados gestor_vacio ∅) cedulas_unicas_ana).
  right. exists (VStr "0123456789"). exact eliminar_ana.
Defined.

Lemma eliminar_quita_el_primero_witness :
  ∃ i e,
    empleados gestor_ana !! i = Some e ∧ py_eq (cedula e) (VStr "0123456789") = true ∧
    (∀ j e', (j < i)%nat → empleados gestor_ana !! j = Some e' →
             py_eq (cedula e') (VStr "0123456789") = false) ∧
    empleados gestor_vacio = delete i (empleados gestor_ana) ∧
    S (length (empleados gestor_vacio)) = length (empleados gestor_ana) ∧
    (cedulas_unicas (empleados gestor_ana) →
     buscar (empleados gestor_vacio) (VStr "0123456789") = None).
Proof.
  exact (eliminar_quita_el_primero gestor_ana ∅ (VStr "0123456789") gestor_vacio
           (guardar_empleados gestor_vacio ∅) eliminar_ana).
Defined.

Lemma crear_eliminar_conservan_validez_witness : roster_valido (empleados gestor_ana).
Proof.
  apply (crear_eliminar_conservan_validez gestor_vacio ∅ true gestor_ana
           (guardar_empleados gestor_ana ∅)).
  - constructor.
  - left. exists candidato_ana. exact crear_ana.
Defined.

Lemma crear_y_eliminar_restituye_witness :
  buscar (empleados gestor_ana) (item candidato_ana "cedula")
    = Some (length (empleados gestor_vacio)) ∧
  ∃ dir2, eliminar_empleado gestor_ana (guardar_empleados gestor_ana ∅)
            (item candidato_ana "cedula") = Ret (true, gestor_vacio, dir2) ∧
          (∀ f, f ≠ repo_archivo (repo gestor_vacio) →
                dir2 !! f = (∅ : gmap string archivo) !! f) ∧
          archivo_al_dia gestor_vacio dir2.
Proof.
  exact (crear_y_eliminar_restituye gestor_vacio ∅ candidato_ana gestor_ana
           (guardar_empleados gestor_ana ∅) crear_ana).
Defined.

Lemma crear_empleado_casos_witness :
  (cedula_registrada (empleados gestor_vacio) (item candidato_ana "cedula") →
     crear_empleado (gestor_vacio, ∅) candidato_ana = Ret (false, gestor_vacio, ∅)) ∧
  (¬ cedula_registrada (empleados gestor_vacio) (item candidato_ana "cedula") →
     dom candidato_ana = list_to_set CAMPOS →
     ∃ self', crear_empleado (gestor_vacio, ∅) candidato_ana
              = Ret (true, self', guardar_empleados self' ∅) ∧
              repo self' = repo gestor_vacio ∧
              empleados self'
              = empleados gestor_vacio
                ++ [Empleado_init (item candidato_ana "cedula") (item candidato_ana "nombre")
                      (item candidato_ana "sueldo") (item candidato_ana "departamento")
                      (item candidato_ana "cargo")]) ∧
  (¬ cedula_registrada (empleados gestor_vacio) (item candidato_ana "cedula") →
     dom candidato_ana ≠ list_to_set CAMPOS →
     (∃ msg, crear_empleado (gestor_vacio, ∅) candidato_ana = Raise (TypeError msg)) ∧
     ∃ k, (k ∉ CAMPOS) ∧ is_Some (candidato_ana !! k)).
Proof.
  apply (crear_empleado_casos gestor_vacio ∅ candidato_ana).
  apply reglas_si_validar_Ret. vm_compute. reflexivity.
Defined.


Lemma generar_ana : generar_nomina_mensual gestor_ana "202401" ∅ = Ret dir_primera.
Proof. vm_compute. reflexivity. Qed.



Lemma generar_y_consultar_witness :
  ∃ doc st,
    dir_primera !! nombre_archivo_nomina "202401" = Some (Legible (DocNomina doc)) ∧
    consultar_estadisticas_nomina "202401" dir_primera = Ret (Reporte st) ∧
    total_empleados st = length (empleados gestor_ana) ∧
    total_neto st = doc_neto doc ∧
    nombres_altos st = nombre <$> filter (λ e, sueldo_alto e = true) (empleados gestor_ana).
Proof.
  exact (generar_y_consultar gestor_ana "202401" ∅ dir_primera
           ltac:(discriminate) generar_ana).
Defined.

Lemma solo_ascii_de_bool s :
  forallb (λ ch, (codigo ch <? 128)%N) (list_ascii_of_string s) = true → solo_ascii s.
Proof.
  intros H ch Hch. rewrite forallb_forall in H.
  apply N.ltb_lt, H. by apply list_elem_of_In.
Qed.

Lemma Forall_solo_ascii_de_bool l :
  forallb (λ s, forallb (λ ch, (codigo ch <? 128)%N) (list_ascii_of_string s)) l = true →
  Forall solo_ascii l.
Proof.
  intros H. rewrite forallb_forall in H. apply List.Forall_forall.
  intros s Hs. apply solo_ascii_de_bool. by apply H.
Qed.

Lemma validar_texto_ascii_witness :
  match validar_texto "Nombre" ["Bea 2"; "Bea Luz"; "abc"] with
  | Leido valor resto =>
      texto_valido (VStr valor) ∧ fullmatch_texto valor = true ∧
      ∃ antes, ["Bea 2"; "Bea Luz"; "abc"] = antes ++ valor :: resto
  | FinDeEntrada => True
  | Fallo _ => False
  end.
Proof.
  apply (validar_texto_ascii "Nombre" ["Bea 2"; "Bea Luz"; "abc"]).
  apply Forall_solo_ascii_de_bool. reflexivity.
Defined.

Lemma flujo_crear_ascii_no_falla_witness :
  match flujo_crear (gestor_ana, ∅) entrada_crear with
  | Leido (b, self', dir') resto =>
      b = false ∧ self' = (gestor_ana, (∅ : gmap string archivo)).1 ∧
        dir' = (gestor_ana, (∅ : gmap string archivo)).2 ∨
      b = true ∧ ∃ e, empleados self' = empleados (gestor_ana, (∅ : gmap string archivo)).1 ++ [e] ∧
                      validar (Empleado_to_dict e) = Ret () ∧ otros e = ∅
  | FinDeEntrada => True
  | Fallo _ => False
  end.
Proof.
  apply (flujo_crear_ascii_no_falla (gestor_ana, ∅) entrada_crear).
  apply Forall_solo_ascii_de_bool. reflexivity.
Defined.

Lemma flujo_crear_nombre_no_ascii_witness :
  flujo_crear (gestor_vacio, ∅)
    ["0123456789"; nombre_acentuado; "1000"; "Ventas"; "Cajera"]
  = Fallo (ValueError MSG_NOMBRE).
Proof.
  apply (flujo_crear_nombre_no_ascii (gestor_vacio, ∅) "0123456789" nombre_acentuado
           "1000" "Ventas" "Cajera" []); try reflexivity.
  exists (dec 1000 1). split; [vm_compute; reflexivity|]. vm_compute. reflexivity.
Defined.

Lemma flujo_modificar_conserva_witness :
  cedula <$> empleados (efecto_leido (flujo_modificar gestor_ana ∅ entrada_modificar)).1.2
    = cedula <$> empleados gestor_ana ∧
  otros <$> empleados (efecto_leido (flujo_modificar gestor_ana ∅ entrada_modificar)).1.2
    = otros <$> empleados gestor_ana ∧
  (Forall solo_ascii entrada_modificar → roster_valido (empleados gestor_ana) →
   roster_valido
     (empleados (efecto_leido (flujo_modificar gestor_ana ∅ entrada_modificar)).1.2)).
Proof.
  apply (flujo_modificar_conserva gestor_ana ∅ entrada_modificar
           (efecto_leido (flujo_modificar gestor_ana ∅ entrada_modificar)).1.1
           (efecto_leido (flujo_modificar gestor_ana ∅ entrada_modificar)).1.2
           (efecto_leido (flujo_modificar gestor_ana ∅ entrada_modificar)).2
           (resto_leido (flujo_modificar gestor_ana ∅ entrada_modificar))).
  vm_compute. reflexivity.
Defined.

Lemma flujo_modificar_ascii_no_falla_witness :
  match flujo_modificar gestor_ana ∅ entrada_modificar with
  | Leido _ _ | FinDeEntrada => True
  | Fallo _ => False
  end.
Proof.
  apply (flujo_modificar_ascii_no_falla gestor_ana ∅ entrada_modificar).
  apply Forall_solo_ascii_de_bool. reflexivity.
Defined.


Lemma dialogos_conservan_cargable_witness :
  Forall sin_extras
    (empleados (efecto_leido (flujo_modificar gestor_ana ∅ entrada_modificar)).1.2) ∧
  ((efecto_leido (flujo_modificar gestor_ana ∅ entrada_modificar)).1.1 = true →
   GestorEmpleados_init
     (repo (efecto_leido (flujo_modificar gestor_ana ∅ entrada_modificar)).1.2)
     (efecto_leido (flujo_modificar gestor_ana ∅ entrada_modificar)).2
   = Ret (efecto_leido (flujo_modificar gestor_ana ∅ entrada_modificar)).1.2).
Proof.
  apply (dialogos_conservan_cargable gestor_ana ∅ entrada_modificar
           (efecto_leido (flujo_modificar gestor_ana ∅ entrada_modificar)).1.1
           (efecto_leido (flujo_modificar gestor_ana ∅ entrada_modificar)).1.2
           (efecto_leido (flujo_modificar gestor_ana ∅ entrada_modificar)).2
           (resto_leido (flujo_modificar gestor_ana ∅ entrada_modificar))).
  - exact sin_extras_ana.
  - right. left. vm_compute. reflexivity.
Defined.
